(** * Options-strategy backtester: ledger, option selector, signal rules

    A shallow embedding of [fyers_trading_strategy] (backtester.py,
    strategies.py, indicators.py) and the properties of its position ledger.

    Numbers.  Prices, strikes, deltas, cash and premiums are Python numbers;
    they are modelled as exact rationals [Q] (value equality is [==]).  The
    values that only pandas or [float('inf')] can produce (NaN and the
    infinities) are added where the code can meet them, in the type [fl].

    Objects.  A position is a Python dict that is shared between
    [self.positions] and [self.trades] and mutated in place.  Every position
    object is appended to [self.trades] when it is created and never removed,
    so the list [trades] is the store of position objects, and a reference to
    a position is its index there; [positions] holds references. *)

From Stdlib Require Import QArith Qabs Lqa.
From stdpp Require Import base list gmap strings.

Local Open Scope Q_scope.

(** ** Exceptions *)

Inductive exn :=
| AttributeError
| ValueError
| ZeroDivisionError
| IndexError
| BadReference.  (* of the model only: a reference outside the store *)

Inductive result (A : Type) :=
| Ok (a : A)
| Raise (e : exn).
Arguments Ok {A} a.
Arguments Raise {A} e.

#[global] Instance result_ret : MRet result := λ A a, Ok a.

#[global] Instance result_bind : MBind result := λ A B k m,
  match m with
  | Ok a => k a
  | Raise e => Raise e
  end.

(** ** Numbers *)

Definition Qltb (x y : Q) : bool := negb (Qle_bool y x).

(** A Python float as far as the code can produce one.  Zero is unsigned:
    the zeros that the code divides by are sums started from [0.0]. *)
Inductive fl :=
| Fin (q : Q)
| Inf
| NInf
| NaN.

(** [a < b] and [a <= b] on floats; every comparison with NaN is false. *)
Definition fl_lt (a b : fl) : bool :=
  match a, b with
  | Fin x, Fin y => Qltb x y
  | Fin _, Inf | NInf, Fin _ | NInf, Inf => true
  | _, _ => false
  end.

Definition fl_le (a b : fl) : bool :=
  match a, b with
  | Fin x, Fin y => Qle_bool x y
  | Fin _, Inf | NInf, Fin _ | NInf, Inf | Inf, Inf | NInf, NInf => true
  | _, _ => false
  end.

Definition fl_neg (a : fl) : fl :=
  match a with
  | Fin x => Fin (- x)
  | Inf => NInf
  | NInf => Inf
  | NaN => NaN
  end.

Definition fl_add (a b : fl) : fl :=
  match a, b with
  | NaN, _ | _, NaN => NaN
  | Fin x, Fin y => Fin (x + y)
  | Inf, NInf | NInf, Inf => NaN
  | Inf, _ | _, Inf => Inf
  | NInf, _ | _, NInf => NInf
  end.

Definition fl_sub (a b : fl) : fl := fl_add a (fl_neg b).

(** numpy division: [x / 0] is an infinity of the sign of [x], [0 / 0] is
    NaN, and nothing is raised. *)
Definition fl_div (a b : fl) : fl :=
  match a, b with
  | NaN, _ | _, NaN => NaN
  | Fin x, Fin y =>
      if Qeq_bool y 0 then
        if Qeq_bool x 0 then NaN else if Qltb 0 x then Inf else NInf
      else Fin (x / y)
  | Fin _, _ => Fin 0
  | _, Fin y =>
      if Qltb y 0 then fl_neg a else a
  | _, _ => NaN
  end.

(** Python truthiness of a number. *)
Definition truthy (x : Q) : bool := negb (Qeq_bool x 0).

(** Python [max(a, b)]: the first argument unless the second is greater. *)
Definition py_max (a b : Q) : Q := if Qltb a b then b else a.

Fixpoint sumQ (xs : list Q) : Q :=
  match xs with
  | [] => 0
  | x :: r => x + sumQ r
  end.

(** ** Data model *)

(** Candle format: [timestamp, open, high, low, close, volume]. *)
Record Candle := {
  timestamp : Z;
  c_open : Q;
  high : Q;
  low : Q;
  close : Q;
  volume : Q
}.

Record OptionContract := {
  symbol : string;
  option_type : string;
  strike_price : Q;
  ltp : Q;
  delta : Q
}.

(** The dict returned by [get_option_chain]; only ['options_chain'] is read. *)
Record OptionChain := { options_chain : list OptionContract }.

Inductive Action := BUY | SELL.

Record Leg := { action : Action; leg_option : OptionContract }.

Inductive Status := OPEN | CLOSED.

#[global] Instance Status_eq_dec : EqDecision Status.
Proof. solve_decision. Defined.

Record Position := {
  strategy : string;
  legs : list Leg;
  entry_premium : Q;
  margin_required : Q;
  pnl : Q;
  status : Status
}.

Record Signal := { signal : string; signal_strategy : string }.

(** ** Option selector *)

(** One iteration of the loop of [_find_option]; the accumulator is
    [(best_option, min_delta_diff)]. *)
Definition find_option_step (target_delta : Q) (ty : string)
    (acc : option OptionContract * fl) (o : OptionContract)
    : option OptionContract * fl :=
  if negb (String.eqb (option_type o) ty) then acc
  else
    let current_delta := Qabs (delta o) in
    let delta_diff := Qabs (current_delta - target_delta) in
    if fl_lt (Fin delta_diff) (snd acc) then (Some o, Fin delta_diff) else acc.

Definition _find_option (option_chain : OptionChain) (target_delta : Q)
    (ty : string) : option OptionContract :=
  fst (fold_left (find_option_step target_delta ty)
         (options_chain option_chain) (None, Inf)).

(** The quantity the selector minimises. *)
Definition delta_diff_of (target_delta : Q) (o : OptionContract) : Q :=
  Qabs (Qabs (delta o) - target_delta).

(** ** Configuration and collaborators *)

(** The constants of [config.py] that the simulation reads. *)
Record Config := {
  SL_PERCENTAGE : Q;
  TP_PERCENTAGE : Q;
  CAPITAL_ALLOCATION_PERCENTAGE : Q;
  INDIA_VIX_THRESHOLD : Q
}.

(** The data provider, as the simulation sees it.  Historical candles are a
    function of the symbol and the date range; the option chain is a live
    snapshot, so the response may differ from one request to the next and is
    indexed by the number of requests made before it. *)
Record FyersClient := {
  get_historical_data : string → string → string → list Candle;
  get_option_chain : nat → string → option OptionChain
}.

(** [datetime.datetime.fromtimestamp(ts).date()] depends on the local time
    zone, and [strftime('%Y-%m-%d')] renders a date; a date is its ordinal. *)
Record Calendar := {
  fromtimestamp_date : Z → Z;
  strftime : Z → string
}.

(** ** indicators.py *)

Module indicators.

(** [series.rolling(window).mean()] on a series without NaN: NaN until the
    window is full, then the mean of the last [window] values. *)
Definition rolling_mean (window : nat) (xs : list Q) : list fl :=
  imap (λ i _,
    if (S i <? window)%nat || (window =? 0)%nat then NaN
    else Fin (sumQ (take window (drop (S i - window) xs))
              / inject_Z (Z.of_nat window))) xs.

Fixpoint diff_from (prev : Q) (xs : list Q) : list fl :=
  match xs with
  | [] => []
  | x :: r => Fin (x - prev) :: diff_from x r
  end.

(** [series.diff()]: the first entry is NaN. *)
Definition diff (xs : list Q) : list fl :=
  match xs with
  | [] => []
  | x :: r => NaN :: diff_from x r
  end.

(** [delta.where(delta > 0, 0)] *)
Definition where_positive (d : fl) : Q :=
  match d with
  | Fin q => if Qltb 0 q then q else 0
  | _ => 0
  end.

(** [-delta.where(delta < 0, 0)] *)
Definition where_negative_neg (d : fl) : Q :=
  match d with
  | Fin q => if Qltb q 0 then - q else 0
  | _ => 0
  end.

(** [pd.DataFrame(data)] of an empty list has no columns, and naming its six
    columns raises ValueError. *)
Definition calculate_sma (data : list Candle) (period : nat)
    : result (option (list fl)) :=
  if (length data <? period)%nat then Ok None
  else
    match data with
    | [] => Raise ValueError
    | _ => Ok (Some (rolling_mean period (close <$> data)))
    end.

Definition calculate_rsi (data : list Candle) (period : nat)
    : result (option (list fl)) :=
  if (length data <? period)%nat then Ok None
  else
    match data with
    | [] => Raise ValueError
    | _ =>
        let delta := diff (close <$> data) in
        let gain := rolling_mean period (where_positive <$> delta) in
        let loss := rolling_mean period (where_negative_neg <$> delta) in
        let rs := zip_with fl_div gain loss in
        let rsi := (λ x, fl_sub (Fin 100) (fl_div (Fin 100) (fl_add (Fin 1) x))) <$> rs in
        Ok (Some rsi)
    end.

(** [series.iloc[-k]] *)
Definition iloc_neg (s : list fl) (k : nat) : result fl :=
  if (length s <? k)%nat then Raise IndexError
  else
    match s !! (length s - k)%nat with
    | Some v => Ok v
    | None => Raise IndexError
    end.

End indicators.

(** ** strategies.py *)

Module Strategy.

Record t := { sl_pct : Q; tp_pct : Q }.

Definition __init__ (config : Config) : t :=
  {| sl_pct := SL_PERCENTAGE config; tp_pct := TP_PERCENTAGE config |}.

Definition check_exit_conditions (self : t) (position : Position)
    : option string :=
  let pnl := pnl position in
  let initial_premium := entry_premium position in
  if Qle_bool pnl (-1 * sl_pct self * initial_premium) then Some "SL"%string
  else if Qle_bool (tp_pct self * initial_premium) pnl then Some "TP"%string
  else None.

End Strategy.

Module DirectionalStrategy.

Record t := {
  base : Strategy.t;
  short_ma_period : nat;
  long_ma_period : nat;
  rsi_period : nat
}.

Definition __init__ (config : Config) (short_ma_period long_ma_period
    rsi_period : nat) : t :=
  {| base := Strategy.__init__ config;
     short_ma_period := short_ma_period;
     long_ma_period := long_ma_period;
     rsi_period := rsi_period |}.

Definition bull_put_spread : Signal :=
  {| signal := "BUY"; signal_strategy := "Bull Put Spread" |}.

Definition bear_call_spread : Signal :=
  {| signal := "SELL"; signal_strategy := "Bear Call Spread" |}.

(** The comparisons on the five latest indicator values. *)
Definition crossover (prev_short_ma prev_long_ma last_short_ma last_long_ma
    last_rsi : fl) : option Signal :=
  let is_bullish_momentum := fl_lt (Fin 50) last_rsi in
  let is_bearish_momentum := fl_lt last_rsi (Fin 50) in
  if fl_le prev_short_ma prev_long_ma && fl_lt last_long_ma last_short_ma
     && is_bullish_momentum
  then Some bull_put_spread
  else if fl_le prev_long_ma prev_short_ma && fl_lt last_short_ma last_long_ma
          && is_bearish_momentum
  then Some bear_call_spread
  else None.

Definition check_entry_signal (self : t) (data : list Candle)
    : result (option Signal) :=
  short_ma ← indicators.calculate_sma data (short_ma_period self);
  long_ma ← indicators.calculate_sma data (long_ma_period self);
  rsi ← indicators.calculate_rsi data (rsi_period self);
  match short_ma, long_ma, rsi with
  | Some short_ma, Some long_ma, Some rsi =>
      last_short_ma ← indicators.iloc_neg short_ma 1;
      last_long_ma ← indicators.iloc_neg long_ma 1;
      prev_short_ma ← indicators.iloc_neg short_ma 2;
      prev_long_ma ← indicators.iloc_neg long_ma 2;
      last_rsi ← indicators.iloc_neg rsi 1;
      Ok (crossover prev_short_ma prev_long_ma last_short_ma last_long_ma
            last_rsi)
  | _, _, _ => Ok None
  end.

End DirectionalStrategy.

Module NonDirectionalStrategy.

Definition short_straddle : Signal :=
  {| signal := "SELL"; signal_strategy := "Short Straddle" |}.

Definition check_entry_signal (config : Config) (vix_value : Q)
    : option Signal :=
  if Qltb (INDIA_VIX_THRESHOLD config) vix_value then Some short_straddle
  else None.

End NonDirectionalStrategy.

(** ** backtester.py *)

(** Python [==] on the dicts of the model: field by field, numbers by value. *)
Definition action_eqb (a b : Action) : bool :=
  match a, b with
  | BUY, BUY | SELL, SELL => true
  | _, _ => false
  end.

Definition status_eqb (a b : Status) : bool :=
  match a, b with
  | OPEN, OPEN | CLOSED, CLOSED => true
  | _, _ => false
  end.

Definition contract_eqb (a b : OptionContract) : bool :=
  String.eqb (symbol a) (symbol b)
  && String.eqb (option_type a) (option_type b)
  && Qeq_bool (strike_price a) (strike_price b)
  && Qeq_bool (ltp a) (ltp b)
  && Qeq_bool (delta a) (delta b).

Definition leg_eqb (a b : Leg) : bool :=
  action_eqb (action a) (action b)
  && contract_eqb (leg_option a) (leg_option b).

Fixpoint legs_eqb (a b : list Leg) : bool :=
  match a, b with
  | [], [] => true
  | x :: a', y :: b' => leg_eqb x y && legs_eqb a' b'
  | _, _ => false
  end.

Definition position_eqb (a b : Position) : bool :=
  String.eqb (strategy a) (strategy b)
  && legs_eqb (legs a) (legs b)
  && Qeq_bool (entry_premium a) (entry_premium b)
  && Qeq_bool (margin_required a) (margin_required b)
  && Qeq_bool (pnl a) (pnl b)
  && status_eqb (status a) (status b).

Definition set_pnl (v : Q) (p : Position) : Position :=
  {| strategy := strategy p; legs := legs p;
     entry_premium := entry_premium p; margin_required := margin_required p;
     pnl := v; status := status p |}.

Definition set_status (v : Status) (p : Position) : Position :=
  {| strategy := strategy p; legs := legs p;
     entry_premium := entry_premium p; margin_required := margin_required p;
     pnl := pnl p; status := v |}.

Module Backtester.

Record t := {
  start_date : string;
  end_date : string;
  initial_capital : Q;
  underlying_symbol : string;
  vix_symbol : string;
  cash : Q;
  positions : list nat;
  trades : list Position;
  dir_strategy : DirectionalStrategy.t;
  non_dir_strategy : Strategy.t
}.

Definition __init__ (config : Config) (start_date end_date : string)
    (initial_capital : Q) (underlying_symbol vix_symbol : string) : t :=
  {| start_date := start_date; end_date := end_date;
     initial_capital := initial_capital;
     underlying_symbol := underlying_symbol; vix_symbol := vix_symbol;
     cash := initial_capital; positions := []; trades := [];
     dir_strategy := DirectionalStrategy.__init__ config 21 55 14;
     non_dir_strategy := Strategy.__init__ config |}.

Definition set_cash (v : Q) (self : t) : t :=
  {| start_date := start_date self; end_date := end_date self;
     initial_capital := initial_capital self;
     underlying_symbol := underlying_symbol self;
     vix_symbol := vix_symbol self;
     cash := v; positions := positions self; trades := trades self;
     dir_strategy := dir_strategy self;
     non_dir_strategy := non_dir_strategy self |}.

Definition set_positions (v : list nat) (self : t) : t :=
  {| start_date := start_date self; end_date := end_date self;
     initial_capital := initial_capital self;
     underlying_symbol := underlying_symbol self;
     vix_symbol := vix_symbol self;
     cash := cash self; positions := v; trades := trades self;
     dir_strategy := dir_strategy self;
     non_dir_strategy := non_dir_strategy self |}.

Definition set_trades (v : list Position) (self : t) : t :=
  {| start_date := start_date self; end_date := end_date self;
     initial_capital := initial_capital self;
     underlying_symbol := underlying_symbol self;
     vix_symbol := vix_symbol self;
     cash := cash self; positions := positions self; trades := v;
     dir_strategy := dir_strategy self;
     non_dir_strategy := non_dir_strategy self |}.

(** *** Entry *)

(** The strategy branches of [_execute_trade]: the legs, the net premium and
    the margin, or [None] where the branch returns early.  A label that is
    none of the three leaves the initial values [[], 0, 0]. *)
Definition resolve_legs (option_chain : OptionChain) (strategy_type : string)
    : option (list Leg * Q * Q) :=
  if String.eqb strategy_type "Bull Put Spread" then
    match _find_option option_chain (3#5) "PE",
          _find_option option_chain (3#10) "PE" with
    | Some put_to_sell, Some put_to_buy =>
        let net_premium := ltp put_to_sell - ltp put_to_buy in
        let margin_required :=
          (strike_price put_to_sell - strike_price put_to_buy) - net_premium in
        Some ([ {| action := SELL; leg_option := put_to_sell |};
                {| action := BUY; leg_option := put_to_buy |} ],
              net_premium, margin_required)
    | _, _ => None
    end
  else if String.eqb strategy_type "Bear Call Spread" then
    match _find_option option_chain (3#5) "CE",
          _find_option option_chain (3#10) "CE" with
    | Some call_to_sell, Some call_to_buy =>
        let net_premium := ltp call_to_sell - ltp call_to_buy in
        let margin_required :=
          (strike_price call_to_buy - strike_price call_to_sell) - net_premium in
        Some ([ {| action := SELL; leg_option := call_to_sell |};
                {| action := BUY; leg_option := call_to_buy |} ],
              net_premium, margin_required)
    | _, _ => None
    end
  else if String.eqb strategy_type "Short Straddle" then
    match _find_option option_chain (1#2) "CE",
          _find_option option_chain (1#2) "PE" with
    | Some atm_call, Some atm_put =>
        let net_premium := ltp atm_call + ltp atm_put in
        let margin_required :=
          py_max (strike_price atm_call) (strike_price atm_put) * (1#5) in
        Some ([ {| action := SELL; leg_option := atm_call |};
                {| action := SELL; leg_option := atm_put |} ],
              net_premium, margin_required)
    | _, _ => None
    end
  else Some ([], 0, 0).

(** What a call of [_execute_trade] prints last. *)
Inductive TradeLog :=
| NoChain      (* Could not fetch option chain. Skipping trade. *)
| NoOptions    (* Could not find suitable options for ... Skipping trade. *)
| MoreMargin   (* Trade requires more margin than available cash. Skipping. *)
| OverAllocation (* Trade exceeds max capital allocation per trade. Skipping. *)
| Executed.    (* Executed ... trade. Margin: ..., Premium: ... *)

(** [option_chain] is the response of
    [self.fyers.get_option_chain(self.underlying_symbol)]. *)
Definition _execute_trade (config : Config) (option_chain : option OptionChain)
    (signal_details : Signal) (current_price : Q) (self : t) : t * TradeLog :=
  let strategy_type := signal_strategy signal_details in
  match option_chain with
  | None => (self, NoChain)
  | Some option_chain =>
      match resolve_legs option_chain strategy_type with
      | None => (self, NoOptions)
      | Some (trade_legs, net_premium, margin_required) =>
          if Qle_bool margin_required 0 || Qltb (cash self) margin_required
          then (self, MoreMargin)
          else if Qltb (initial_capital self
                        * CAPITAL_ALLOCATION_PERCENTAGE config) margin_required
          then (self, OverAllocation)
          else
            let position :=
              {| strategy := strategy_type; legs := trade_legs;
                 entry_premium := net_premium;
                 margin_required := margin_required;
                 pnl := 0; status := OPEN |} in
            let ref := length (trades self) in
            let self := set_positions (positions self ++ [ref]) self in
            let self := set_cash (cash self - margin_required) self in
            let self := set_trades (trades self ++ [position]) self in
            (self, Executed)
      end
  end.

(** *** End-of-day settlement *)

(** The loop over the legs: [Some current_net_premium] when every leg has a
    closing price, [None] when the loop breaks with [all_legs_found] false. *)
Fixpoint legs_loop (fetch : string → list Candle) (legs : list Leg)
    (current_net_premium : Q) : option Q :=
  match legs with
  | [] => Some current_net_premium
  | leg :: rest =>
      match fetch (symbol (leg_option leg)) with
      | [] => None
      | candle :: _ =>
          let close_price := close candle in
          legs_loop fetch rest
            (match action leg with
             | SELL => current_net_premium - close_price
             | BUY => current_net_premium + close_price
             end)
      end
  end.

(** [self.positions.remove(position)]: drops the first element that is the
    object [ref] or equals it as a dict; ValueError when there is none. *)
Fixpoint list_remove (store : list Position) (ref : nat) (value : Position)
    (l : list nat) : result (list nat) :=
  match l with
  | [] => Raise ValueError
  | r :: l' =>
      if (r =? ref)%nat
         || match store !! r with
            | Some p => position_eqb p value
            | None => false
            end
      then Ok l'
      else l'' ← list_remove store ref value l'; Ok (r :: l'')
  end.

(** The body of the loop over [self.positions[:]] for the position [ref]. *)
Definition settle_position (fyers : FyersClient) (date_str : string)
    (ref : nat) (self : t) : result t :=
  match trades self !! ref with
  | None => Raise BadReference
  | Some position =>
      match status position with
      | CLOSED => Ok self
      | OPEN =>
          match legs_loop (λ s, get_historical_data fyers s date_str date_str)
                  (legs position) 0 with
          | None => Ok self
          | Some current_net_premium =>
              let pnl := entry_premium position - current_net_premium in
              let position := set_pnl pnl position in
              let self := set_trades (<[ref := position]> (trades self)) self in
              match Strategy.check_exit_conditions
                      (DirectionalStrategy.base (dir_strategy self))
                      position with
              | None => Ok self
              | Some exit_signal =>
                  let position := set_status CLOSED position in
                  let self :=
                    set_trades (<[ref := position]> (trades self)) self in
                  let self :=
                    set_cash (cash self + (margin_required position + pnl))
                      self in
                  l ← list_remove (trades self) ref position (positions self);
                  Ok (set_positions l self)
              end
          end
      end
  end.

Fixpoint settle_all (fyers : FyersClient) (date_str : string)
    (snapshot : list nat) (self : t) : result t :=
  match snapshot with
  | [] => Ok self
  | ref :: rest =>
      self ← settle_position fyers date_str ref self;
      settle_all fyers date_str rest self
  end.

(** [date_to_check] is [None] for Python's [None], which has no
    [strftime]. *)
Definition _handle_eod_exits (fyers : FyersClient) (cal : Calendar)
    (date_to_check : option Z) (self : t) : result t :=
  match date_to_check with
  | None => Raise AttributeError
  | Some d =>
      let date_str := strftime cal d in
      settle_all fyers date_str (positions self) self
  end.

(** *** Report *)

Record Report := {
  final_capital : Q;
  total_pnl : Q;
  pnl_pct : Q;
  num_trades : nat;
  num_wins : nat;
  num_losses : nat;
  win_rate : Q
}.

Definition generate_report (self : t) : result Report :=
  let final_capital := cash self in
  let total_pnl := final_capital - initial_capital self in
  if Qeq_bool (initial_capital self) 0 then Raise ZeroDivisionError
  else
    let pnl_pct := (total_pnl / initial_capital self) * 100 in
    let num_trades := length (trades self) in
    let winning_trades := filter (λ t, Qltb 0 (pnl t) = true) (trades self) in
    let losing_trades := filter (λ t, Qle_bool (pnl t) 0 = true) (trades self) in
    let num_wins := length winning_trades in
    let num_losses := length losing_trades in
    let win_rate :=
      if (0 <? num_trades)%nat
      then (inject_Z (Z.of_nat num_wins) / inject_Z (Z.of_nat num_trades)) * 100
      else 0 in
    Ok {| final_capital := final_capital; total_pnl := total_pnl;
          pnl_pct := pnl_pct; num_trades := num_trades;
          num_wins := num_wins; num_losses := num_losses;
          win_rate := win_rate |}.

(** *** Simulation loop *)

(** [{candle[0]: candle[4] for candle in vix_data}]: a later candle with the
    same timestamp replaces an earlier one. *)
Definition make_vix_map (vix_data : list Candle) : gmap Z Q :=
  foldl (λ m candle, <[timestamp candle := close candle]> m) ∅ vix_data.

(** The variables of the loop of [run_backtest]; [requests] counts the
    option-chain requests made so far. *)
Record LoopState := {
  prev_day : option Z;
  self_ : t;
  requests : nat
}.

(** A signal, when there is one, makes one entry attempt and one request. *)
Definition attempt (config : Config) (fyers : FyersClient)
    (sig : option Signal) (current_price : Q) (self : t) (n : nat) : t * nat :=
  match sig with
  | None => (self, n)
  | Some signal_details =>
      (fst (_execute_trade config
              (get_option_chain fyers n (underlying_symbol self))
              signal_details current_price self), S n)
  end.

(** The non-directional check of one step, given [vix_map.get(timestamp)]. *)
Definition non_directional_signal (config : Config) (current_vix : option Q)
    : option Signal :=
  match current_vix with
  | None => None
  | Some current_vix =>
      if truthy current_vix
      then NonDirectionalStrategy.check_entry_signal config current_vix
      else None
  end.

Definition loop_body (config : Config) (fyers : FyersClient) (cal : Calendar)
    (underlying_data : list Candle) (vix_map : gmap Z Q) (i : nat)
    (st : LoopState) : result LoopState :=
  let self := self_ st in
  if (i <? DirectionalStrategy.long_ma_period (dir_strategy self))%nat
  then Ok st
  else
    match underlying_data !! i with
    | None => Raise IndexError
    | Some current_candle =>
        let current_timestamp := timestamp current_candle in
        let current_price := close current_candle in
        let current_day := fromtimestamp_date cal current_timestamp in
        self ← match prev_day st with
               | Some prev =>
                   if bool_decide (current_day ≠ prev)
                   then _handle_eod_exits fyers cal (Some prev) self
                   else Ok self
               | None => Ok self
               end;
        let data_slice := take (i + 1) underlying_data in
        dir_signal ← DirectionalStrategy.check_entry_signal
                       (dir_strategy self) data_slice;
        let '(self, n) :=
          attempt config fyers dir_signal current_price self (requests st) in
        let current_vix := vix_map !! current_timestamp in
        let '(self, n) :=
          attempt config fyers (non_directional_signal config current_vix)
            current_price self n in
        Ok {| prev_day := Some current_day; self_ := self; requests := n |}
    end.

Fixpoint loop (config : Config) (fyers : FyersClient) (cal : Calendar)
    (underlying_data : list Candle) (vix_map : gmap Z Q) (indices : list nat)
    (st : LoopState) : result LoopState :=
  match indices with
  | [] => Ok st
  | i :: rest =>
      st ← loop_body config fyers cal underlying_data vix_map i st;
      loop config fyers cal underlying_data vix_map rest st
  end.

(** [Ok None] is the early return without a report; [Ok (Some _)] carries the
    final ledger and the report. *)
Definition run_backtest (config : Config) (fyers : FyersClient)
    (cal : Calendar) (self : t) : result (option (t * Report)) :=
  let underlying_data :=
    get_historical_data fyers (underlying_symbol self) (start_date self)
      (end_date self) in
  let vix_data :=
    get_historical_data fyers (vix_symbol self) (start_date self)
      (end_date self) in
  match underlying_data, vix_data with
  | [], _ | _, [] => Ok None
  | _, _ =>
      let vix_map := make_vix_map vix_data in
      st ← loop config fyers cal underlying_data vix_map
             (seq 0 (length underlying_data))
             {| prev_day := None; self_ := self; requests := 0 |};
      self ← _handle_eod_exits fyers cal (prev_day st) (self_ st);
      report ← generate_report self;
      Ok (Some (self, report))
  end.

End Backtester.

(** * Specification vocabulary *)

(** ** Option selector *)

(** What the accumulator of the scan holds after a prefix of the chain. *)
Definition scanned (target_delta : Q) (ty : string) (pre : list OptionContract)
    (acc : option OptionContract * fl) : Prop :=
  match acc with
  | (None, m) => m = Inf ∧ ∀ o, o ∈ pre → option_type o ≠ ty
  | (Some best, m) =>
      m = Fin (delta_diff_of target_delta best) ∧
      ∃ k, pre !! k = Some best ∧ option_type best = ty ∧
        ∀ j o, pre !! j = Some o → option_type o = ty →
          delta_diff_of target_delta best <= delta_diff_of target_delta o ∧ ((j < k)%nat → delta_diff_of target_delta best < delta_diff_of target_delta o)
  end.


(** Two floats with the same value. *)
Definition fl_equiv (a b : fl) : Prop :=
  match a, b with
  | Fin x, Fin y => x == y
  | Inf, Inf | NInf, NInf | NaN, NaN => True
  | _, _ => False
  end.

(** ** Directional generator *)

(** The five indicator values that [check_entry_signal] reads from a
    prefix: the last two of each moving average and the last oscillator
    value. *)
Definition latest_values (self : DirectionalStrategy.t) (data : list Candle)
    (prev_short_ma prev_long_ma last_short_ma last_long_ma last_rsi : fl)
    : Prop :=
  ∃ short_ma long_ma rsi,
    indicators.calculate_sma data (DirectionalStrategy.short_ma_period self)
      = Ok (Some short_ma) ∧
    indicators.calculate_sma data (DirectionalStrategy.long_ma_period self)
      = Ok (Some long_ma) ∧
    indicators.calculate_rsi data (DirectionalStrategy.rsi_period self)
      = Ok (Some rsi) ∧
    indicators.iloc_neg short_ma 2 = Ok prev_short_ma ∧
    indicators.iloc_neg long_ma 2 = Ok prev_long_ma ∧
    indicators.iloc_neg short_ma 1 = Ok last_short_ma ∧
    indicators.iloc_neg long_ma 1 = Ok last_long_ma ∧
    indicators.iloc_neg rsi 1 = Ok last_rsi.


(** ** Ledger *)

(** The two ledger operations, with what the collaborators answer. *)
Inductive Op :=
| Entry (option_chain : option OptionChain) (signal_details : Signal)
    (current_price : Q)
| Settlement (fyers : FyersClient) (cal : Calendar) (day : Z).

Definition run_op (config : Config) (op : Op) (self : Backtester.t)
    : result Backtester.t :=
  match op with
  | Entry option_chain signal_details current_price =>
      Ok (fst (Backtester._execute_trade config option_chain signal_details
                 current_price self))
  | Settlement fyers cal day =>
      Backtester._handle_eod_exits fyers cal (Some day) self
  end.

Fixpoint run_ops (config : Config) (ops : list Op) (self : Backtester.t)
    : result Backtester.t :=
  match ops with
  | [] => Ok self
  | op :: rest => self ← run_op config op self; run_ops config rest self
  end.



(** What one position has added to cash so far. *)
Definition contribution (p : Position) : Q :=
  match status p with
  | CLOSED => pnl p
  | OPEN => - margin_required p
  end.

(** The fields of a position that are set at creation. *)
Definition same_terms (p p' : Position) : Prop :=
  strategy p' = strategy p ∧ legs p' = legs p ∧
  entry_premium p' = entry_premium p ∧
  margin_required p' = margin_required p.

(** [self'] is a later state of the object [self]: the fields outside the
    ledger are the same, and every position of [self] is still in the store
    at the same reference with the terms it was created with. *)
Definition later (self self' : Backtester.t) : Prop :=
  Backtester.start_date self' = Backtester.start_date self ∧
  Backtester.end_date self' = Backtester.end_date self ∧
  Backtester.initial_capital self' = Backtester.initial_capital self ∧
  Backtester.underlying_symbol self' = Backtester.underlying_symbol self ∧
  Backtester.vix_symbol self' = Backtester.vix_symbol self ∧
  Backtester.dir_strategy self' = Backtester.dir_strategy self ∧
  Backtester.non_dir_strategy self' = Backtester.non_dir_strategy self ∧
  ∀ ref p, Backtester.trades self !! ref = Some p →
    ∃ p', Backtester.trades self' !! ref = Some p' ∧ same_terms p p'.

(** The open list and the store agree, and cash is accounted for. *)
Record ledger_inv (self : Backtester.t) : Prop := {
  inv_nodup : NoDup (Backtester.positions self);
  inv_open : ∀ ref, ref ∈ Backtester.positions self ↔
    ∃ p, Backtester.trades self !! ref = Some p ∧ status p = OPEN;
  inv_cash :
    Backtester.cash self ==
    Backtester.initial_capital self
    + sumQ (contribution <$> Backtester.trades self);
  inv_margin : ∀ p, p ∈ Backtester.trades self → 0 < margin_required p
}.

(** ** Sample data *)

Module Sample.

Definition config : Config :=
  {| SL_PERCENTAGE := 1#5; TP_PERCENTAGE := 4#5;
     CAPITAL_ALLOCATION_PERCENTAGE := 1#10; INDIA_VIX_THRESHOLD := 18 |}.

Definition contract (symbol option_type : string) (strike_price ltp delta : Q)
    : OptionContract :=
  {| symbol := symbol; option_type := option_type;
     strike_price := strike_price; ltp := ltp; delta := delta |}.

Definition put_100 := contract "NIFTY-100-PE" "PE" 100 10 (-(3#5)).
Definition put_90 := contract "NIFTY-90-PE" "PE" 90 4 (-(3#10)).
Definition call_100 := contract "NIFTY-100-CE" "CE" 100 9 (1#2).
Definition call_110 := contract "NIFTY-110-CE" "CE" 110 3 (3#10).

Definition chain : OptionChain :=
  {| options_chain := [put_100; call_100; put_90; call_110] |}.

Definition flat_candle (timestamp : Z) (price : Q) : Candle :=
  {| timestamp := timestamp; c_open := price; high := price; low := price;
     close := price; volume := 0 |}.

Definition calendar : Calendar :=
  {| fromtimestamp_date := λ ts, (ts / 86400)%Z;
     strftime := λ d, if (d =? 0)%Z then "1970-01-01"%string
                      else "1970-01-02"%string |}.

(** Every option of [chain] closes the day at its last-traded price. *)
Definition fyers_unchanged : FyersClient :=
  {| get_historical_data := λ sym _ _,
       match List.find (λ o, String.eqb (symbol o) sym) (options_chain chain)
       with
       | Some o => [flat_candle 0 (ltp o)]
       | None => []
       end;
     get_option_chain := λ _ _, Some chain |}.

(** No daily candle for any option. *)
Definition fyers_no_closes : FyersClient :=
  {| get_historical_data := λ _ _ _, [];
     get_option_chain := λ _ _, Some chain |}.

(** One candle for the underlying and one for the volatility index. *)
Definition fyers_one_candle : FyersClient :=
  {| get_historical_data := λ _ _ _, [flat_candle 0 100];
     get_option_chain := λ _ _, Some chain |}.

Definition backtester (initial_capital : Q) : Backtester.t :=
  Backtester.__init__ config "1970-01-01" "1970-01-31" initial_capital
    "NSE:NIFTY50-INDEX" "NSE:INDIAVIX-INDEX".

(** The ledger after one Bull Put Spread entry on [chain]. *)
Definition after_entry : Backtester.t :=
  fst (Backtester._execute_trade config (Some chain)
         DirectionalStrategy.bull_put_spread 100 (backtester 100000)).

Definition spread : Position :=
  {| strategy := "Bull Put Spread";
     legs := [ {| action := SELL; leg_option := put_100 |};
               {| action := BUY; leg_option := put_90 |} ];
     entry_premium := 10 - 4;
     margin_required := (100 - 90) - (10 - 4);
     pnl := 0; status := OPEN |}.

(** Two puts at the same distance 0.1 from a target of 0.6, and no call
    but one that comes later. *)
Definition tied_chain : OptionChain :=
  {| options_chain := [ contract "A" "PE" 100 1 (-(1#2));
                        contract "B" "PE" 90 1 (-(7#10));
                        contract "C" "CE" 90 1 (3#5) ] |}.

Definition puts_only : OptionChain :=
  {| options_chain := [put_100; put_90] |}.


(** Short MA 10 <= long MA 10, then short MA 11.5 > long MA 11, with the
    oscillator at 100. *)
Definition crossing : list Candle :=
  [flat_candle 0 10; flat_candle 300 10; flat_candle 600 10;
   flat_candle 900 13].

Definition fast_strategy : DirectionalStrategy.t :=
  DirectionalStrategy.__init__ config 2 3 2.

(** A run of 57 five-minute candles of one day; the volatility index is at
    19 on the candle of index 55, and options close at their last-traded
    price. *)
Definition run_candles : list Candle :=
  (λ i, flat_candle (300 * Z.of_nat i) 100) <$> seq 0 57.

Definition fyers_run : FyersClient :=
  {| get_historical_data := λ sym start_date end_date,
       if String.eqb sym "NSE:NIFTY50-INDEX" then run_candles
       else if String.eqb sym "NSE:INDIAVIX-INDEX"
       then [flat_candle (300 * 55) 19]
       else get_historical_data fyers_unchanged sym start_date end_date;
     get_option_chain := λ _ _, Some chain |}.

Definition nothing_requested (initial_capital : Q) : Backtester.LoopState :=
  {| Backtester.prev_day := None;
     Backtester.self_ := backtester initial_capital;
     Backtester.requests := 0 |}.

(** The ledger at the end of that run. *)
Definition final_ledger : Backtester.t :=
  Eval vm_compute in
    match Backtester.run_backtest config fyers_run calendar (backtester 100000)
    with
    | Ok (Some (s, _)) => s
    | _ => backtester 100000
    end.

End Sample.

(** ** Further vocabulary *)

(** Two contracts of one type at the same distance from the money. *)
Definition same_moneyness (o o' : OptionContract) : Prop :=
  option_type o = option_type o' ∧ Qabs (delta o) == Qabs (delta o').

(** The three labels that [_execute_trade] knows. *)
Definition known_strategy (label : string) : Prop :=
  label = "Bull Put Spread"%string ∨ label = "Bear Call Spread"%string ∨
  label = "Short Straddle"%string.

(** The accumulators of two scans over chains of the same moneyness. *)
Definition scans_agree (pre pre' : list OptionContract)
    (acc acc' : option OptionContract * fl) : Prop :=
  fl_equiv (snd acc) (snd acc') ∧
  match fst acc, fst acc' with
  | None, None => True
  | Some b, Some b' =>
      ∃ k, pre !! k = Some b ∧ pre' !! k = Some b'
  | _, _ => False
  end.

(** The position at [ref] has nothing left to settle on the day: it is
    closed, or a leg has no closing price, or its pnl is the one of the day
    and meets no exit condition. *)
Definition settled_at (fyers : FyersClient) (date_str : string)
    (self : Backtester.t) (ref : nat) : Prop :=
  ∀ p, Backtester.trades self !! ref = Some p → status p = OPEN →
    match Backtester.legs_loop
            (λ s, get_historical_data fyers s date_str date_str) (legs p) 0
    with
    | None => True
    | Some current_net_premium =>
        pnl p = entry_premium p - current_net_premium ∧
        Strategy.check_exit_conditions
          (DirectionalStrategy.base (Backtester.dir_strategy self)) p = None
    end.

(** ** mario_game/main.py *)

(** A [pygame.Rect] has integer fields; a sprite group is the list of the
    rects of its sprites in the order in which they were added; the
    keyboard is the state of the two arrow keys. *)
Module mario.

Local Open Scope Z_scope.
















End mario.

(** ** More sample data *)

Module Cases.

(** The puts of [Sample.puts_only] quoted with positive deltas. *)
Definition unsigned_puts : OptionChain :=
  {| options_chain :=
       [ Sample.contract "NIFTY-100-PE" "PE" 100 10 (3#5);
         Sample.contract "NIFTY-90-PE" "PE" 90 4 (3#10) ] |}.

(** One put only: both legs of a Bull Put Spread fall on it. *)
Definition one_put : OptionChain :=
  {| options_chain := [Sample.put_100; Sample.call_100] |}.

Definition exit_rule : Strategy.t := Strategy.__init__ Sample.config.

Definition no_premium : Position :=
  {| strategy := "Bull Put Spread"; legs := []; entry_premium := 0;
     margin_required := 1; pnl := 3; status := OPEN |}.


(** The step of index 55 of the run of [Sample.fyers_run], from the state
    in which the loop starts. *)
Definition vix_map_55 : gmap Z Q :=
  Backtester.make_vix_map [Sample.flat_candle (300 * 55) 19].

Definition after_step : Backtester.LoopState :=
  Eval vm_compute in
    match Backtester.loop_body Sample.config Sample.fyers_run Sample.calendar
            Sample.run_candles vix_map_55 55 (Sample.nothing_requested 100000)
    with
    | Ok st => st
    | Raise _ => Sample.nothing_requested 100000
    end.

Definition flat : list Candle :=
  [Sample.flat_candle 0 10; Sample.flat_candle 300 10;
   Sample.flat_candle 600 10].

Definition rising : list Candle :=
  [Sample.flat_candle 0 10; Sample.flat_candle 300 11;
   Sample.flat_candle 600 13].


Definition rsi_2_rising : list fl :=
  Eval vm_compute in
    match indicators.calculate_rsi rising 2 with
    | Ok (Some s) => s
    | _ => []
    end.


End Cases.

(** * Properties *)

(** ** Numbers *)

Lemma Qltb_lt x y : Qltb x y = true ↔ x < y.
Proof.
  unfold Qltb. rewrite negb_true_iff, <- not_true_iff_false, Qle_bool_iff.
  split; [apply Qnot_le_lt | apply Qlt_not_le].
Qed.

Lemma Qltb_ge x y : Qltb x y = false ↔ y <= x.
Proof. unfold Qltb. rewrite negb_false_iff. apply Qle_bool_iff. Qed.

Lemma Qltb_proper x x' y y' : x == x' → y == y' → Qltb x y = Qltb x' y'.
Proof.
  intros Hx Hy. destruct (Qltb x' y') eqn:E.
  - apply Qltb_lt. apply Qltb_lt in E. lra.
  - apply Qltb_ge. apply Qltb_ge in E. lra.
Qed.

(** ** Option selector *)

Section find_option.
Variables (target_delta : Q) (ty : string).

Abbreviation step := (find_option_step target_delta ty).
Abbreviation diff := (delta_diff_of target_delta).
Abbreviation scanned := (scanned target_delta ty).

Lemma find_option_step_eq acc o :
  step acc o =
  if negb (String.eqb (option_type o) ty) then acc
  else if fl_lt (Fin (diff o)) (snd acc) then (Some o, Fin (diff o)) else acc.
Proof. reflexivity. Qed.

Lemma lookup_snoc_inv {A} (pre : list A) (x y : A) j :
  (pre ++ [x]) !! j = Some y →
  pre !! j = Some y ∨ (j = length pre ∧ y = x).
Proof.
  intros Hj. destruct (decide (j < length pre)%nat) as [Hlt|Hge].
  - left. by rewrite lookup_app_l in Hj.
  - right. assert (j = length pre) as ->.
    { apply lookup_lt_Some in Hj. rewrite length_app in Hj. simpl in Hj. lia. }
    rewrite list_lookup_middle in Hj by done. by injection Hj as <-.
Qed.

Lemma scanned_step pre acc o :
  scanned pre acc → scanned (pre ++ [o]) (step acc o).
Proof.
  rewrite find_option_step_eq.
  destruct (String.eqb_spec (option_type o) ty) as [Ety|Ety]; cbn [negb].
  - (* a contract of the requested type *)
    destruct acc as [[best|] m]; intros [-> H]; cbn [snd fl_lt].
    + destruct H as (k & Hk & Hty & Hmin).
      destruct (Qltb (diff o) (diff best)) eqn:Elt.
      * apply Qltb_lt in Elt. split; [done|].
        exists (length pre). split; [by rewrite list_lookup_middle|].
        split; [done|]. intros j o' Hj Hty'.
        apply lookup_snoc_inv in Hj as [Hj|[-> ->]].
        -- destruct (Hmin j o' Hj Hty') as [Hle _].
           apply lookup_lt_Some in Hj. split; intros; lra.
        -- split; [lra | lia].
      * apply Qltb_ge in Elt. split; [done|].
        exists k. split; [by apply lookup_app_l_Some|]. split; [done|].
        intros j o' Hj Hty'.
        apply lookup_snoc_inv in Hj as [Hj|[-> ->]]; [by apply Hmin|].
        split; [done|]. intros Hjk. apply lookup_lt_Some in Hk. lia.
    + split; [done|]. exists (length pre).
      split; [by rewrite list_lookup_middle|]. split; [done|].
      intros j o' Hj Hty'.
      apply lookup_snoc_inv in Hj as [Hj|[-> ->]].
      * exfalso. eapply H; [|done]. by eapply list_elem_of_lookup_2.
      * split; [lra | lia].
  - (* another type: skipped *)
    destruct acc as [[best|] m]; intros [-> H].
    + destruct H as (k & Hk & Hty & Hmin). split; [done|].
      exists k. split; [by apply lookup_app_l_Some|]. split; [done|].
      intros j o' Hj Hty'.
      apply lookup_snoc_inv in Hj as [Hj|[-> ->]]; [by apply Hmin | done].
    + split; [done|].
      intros o' [Hin| ->%list_elem_of_singleton]%elem_of_app; [by apply H | done].
Qed.

Lemma scanned_fold l :
  scanned l (fold_left step l (None, Inf)).
Proof.
  induction l as [|o l IH] using rev_ind.
  - simpl. split; [done|]. intros o Ho. by apply elem_of_nil in Ho.
  - rewrite fold_left_app. simpl. by apply scanned_step.
Qed.

End find_option.


Lemma fl_lt_proper a a' b b' :
  fl_equiv a a' → fl_equiv b b' → fl_lt a b = fl_lt a' b'.
Proof.
  destruct a, a', b, b'; simpl; try done. intros. by apply Qltb_proper.
Qed.




(** ** Shared exit rule *)


(** ** The exception monad *)

Lemma bind_Ok {A B} (a : A) (k : A → result B) : Ok a ≫= k = k a.
Proof. reflexivity. Qed.

Lemma bind_Raise {A B} (e : exn) (k : A → result B) : Raise e ≫= k = Raise e.
Proof. reflexivity. Qed.

Ltac run_result := rewrite ?bind_Ok, ?bind_Raise.
Ltac run_result_in H := rewrite ?bind_Ok, ?bind_Raise in H.

(** ** Directional generator *)





Lemma length_rolling_mean w xs :
  length (indicators.rolling_mean w xs) = length xs.
Proof. apply length_imap. Qed.

Lemma length_diff xs : length (indicators.diff xs) = length xs.
Proof.
  destruct xs as [|x xs]; [done|]. simpl. f_equal.
  revert x. induction xs as [|y xs IH]; intros x; simpl; [done|].
  by rewrite IH.
Qed.

(** On a non-empty prefix an indicator is a full-length series when the
    prefix is long enough, [None] otherwise; nothing is raised. *)
Lemma calculate_sma_enough data period :
  data ≠ [] → (period ≤ length data)%nat →
  ∃ s, indicators.calculate_sma data period = Ok (Some s) ∧
       length s = length data.
Proof.
  intros Hne H. unfold indicators.calculate_sma.
  destruct (Nat.ltb_spec (length data) period); [lia|].
  destruct data as [|c data]; [done|].
  eexists. split; [done|]. by rewrite length_rolling_mean, length_fmap.
Qed.

Lemma calculate_rsi_enough data period :
  data ≠ [] → (period ≤ length data)%nat →
  ∃ s, indicators.calculate_rsi data period = Ok (Some s) ∧
       length s = length data.
Proof.
  intros Hne H. unfold indicators.calculate_rsi.
  destruct (Nat.ltb_spec (length data) period); [lia|].
  destruct data as [|c data]; [done|].
  eexists. split; [done|].
  rewrite length_fmap, length_zip_with, !length_rolling_mean, !length_fmap,
    length_diff, length_fmap. lia.
Qed.

Lemma calculate_sma_short data period :
  (length data < period)%nat → indicators.calculate_sma data period = Ok None.
Proof.
  intros H. unfold indicators.calculate_sma.
  by destruct (Nat.ltb_spec (length data) period); [|lia].
Qed.

Lemma calculate_rsi_short data period :
  (length data < period)%nat → indicators.calculate_rsi data period = Ok None.
Proof.
  intros H. unfold indicators.calculate_rsi.
  by destruct (Nat.ltb_spec (length data) period); [|lia].
Qed.

(** The only input on which an indicator raises is the empty prefix with a
    period of 0. *)
Lemma indicators_return data period :
  data ≠ [] ∨ (0 < period)%nat →
  (∃ o, indicators.calculate_sma data period = Ok o) ∧
  (∃ o, indicators.calculate_rsi data period = Ok o).
Proof.
  intros H. destruct (decide (length data < period)%nat) as [Hlt|Hge].
  - rewrite calculate_sma_short, calculate_rsi_short by done. eauto.
  - assert (data ≠ []) as Hne.
    { destruct H as [?|?]; [done|]. intros ->. simpl in Hge. lia. }
    destruct (calculate_sma_enough data period) as (? & -> & _); [done|lia|].
    destruct (calculate_rsi_enough data period) as (? & -> & _); [done|lia|].
    eauto.
Qed.

Lemma iloc_neg_in_range s k :
  (0 < k ≤ length s)%nat → ∃ v, indicators.iloc_neg s k = Ok v.
Proof.
  intros [H0 H]. unfold indicators.iloc_neg.
  destruct (Nat.ltb_spec (length s) k); [lia|].
  destruct (s !! (length s - k)%nat) as [v|] eqn:E; [by eexists|].
  apply lookup_ge_None in E. lia.
Qed.

(** Once the five values are there, the result is their comparison. *)
Lemma check_entry_signal_latest self data ps pl ls ll r :
  latest_values self data ps pl ls ll r →
  DirectionalStrategy.check_entry_signal self data
  = Ok (DirectionalStrategy.crossover ps pl ls ll r).
Proof.
  intros (sm & lm & rs & E1 & E2 & E3 & H1 & H2 & H3 & H4 & H5).
  unfold DirectionalStrategy.check_entry_signal.
  rewrite E1, E2, E3. run_result. cbv beta iota.
  rewrite H3, H4, H1, H2, H5. by run_result.
Qed.


Lemma latest_values_exist self data :
  (DirectionalStrategy.short_ma_period self ≤ length data)%nat →
  (DirectionalStrategy.long_ma_period self ≤ length data)%nat →
  (DirectionalStrategy.rsi_period self ≤ length data)%nat →
  (2 ≤ length data)%nat →
  ∃ ps pl ls ll r, latest_values self data ps pl ls ll r.
Proof.
  intros Es El Eo H2.
  assert (data ≠ []) as Hne by (intros ->; simpl in H2; lia).
  destruct (calculate_sma_enough data _ Hne Es) as (sm & Esm & Lsm).
  destruct (calculate_sma_enough data _ Hne El) as (lm & Elm & Llm).
  destruct (calculate_rsi_enough data _ Hne Eo) as (rs & Ers & Lrs).
  destruct (iloc_neg_in_range sm 1) as [ls Els]; [lia|].
  destruct (iloc_neg_in_range lm 1) as [ll Ell]; [lia|].
  destruct (iloc_neg_in_range sm 2) as [ps Eps]; [lia|].
  destruct (iloc_neg_in_range lm 2) as [pl Epl]; [lia|].
  destruct (iloc_neg_in_range rs 1) as [r Er]; [lia|].
  exists ps, pl, ls, ll, r, sm, lm, rs. by repeat split.
Qed.

(** A prefix that is too short for one of the indicators gives no signal. *)
Lemma check_entry_signal_insufficient self data :
  let short := DirectionalStrategy.short_ma_period self in
  let long := DirectionalStrategy.long_ma_period self in
  let osc := DirectionalStrategy.rsi_period self in
  data ≠ [] ∨ (0 < short ∧ 0 < long ∧ 0 < osc)%nat →
  (length data < short ∨ length data < long ∨ length data < osc)%nat →
  DirectionalStrategy.check_entry_signal self data = Ok None.
Proof.
  intros short long osc Hdata Hshort.
  unfold DirectionalStrategy.check_entry_signal. fold short long osc.
  destruct (proj1 (indicators_return data short ltac:(tauto))) as [o1 E1].
  destruct (proj1 (indicators_return data long ltac:(tauto))) as [o2 E2].
  destruct (proj2 (indicators_return data osc ltac:(tauto))) as [o3 E3].
  rewrite E1, E2, E3. run_result.
  destruct Hshort as [H|[H|H]].
  - rewrite calculate_sma_short in E1 by done. by injection E1 as <-.
  - rewrite calculate_sma_short in E2 by done. injection E2 as <-.
    by destruct o1.
  - rewrite calculate_rsi_short in E3 by done. injection E3 as <-.
    by destruct o1, o2.
Qed.

(** On two candles or more nothing is raised. *)
Lemma check_entry_signal_returns self data :
  (2 ≤ length data)%nat →
  ∃ o, DirectionalStrategy.check_entry_signal self data = Ok o.
Proof.
  intros H2.
  destruct (decide (DirectionalStrategy.short_ma_period self ≤ length data
                    ∧ DirectionalStrategy.long_ma_period self ≤ length data
                    ∧ DirectionalStrategy.rsi_period self ≤ length data)%nat)
    as [(Es & El & Eo)|Hshort].
  - destruct (latest_values_exist self data Es El Eo H2)
      as (ps & pl & ls & ll & r & Hv).
    rewrite (check_entry_signal_latest _ _ _ _ _ _ _ Hv). eauto.
  - exists None. apply check_entry_signal_insufficient.
    + left. intros ->. simpl in H2. lia.
    + lia.
Qed.


(** ** Sums over the store *)

Lemma sumQ_app xs ys : sumQ (xs ++ ys) == sumQ xs + sumQ ys.
Proof. induction xs as [|x xs IH]; simpl; [|rewrite IH]; ring. Qed.

Lemma sumQ_insert {A} (f : A → Q) (l : list A) i x y :
  l !! i = Some x →
  sumQ (f <$> <[i:=y]> l) == sumQ (f <$> l) - f x + f y.
Proof.
  unfold fmap. revert i. induction l as [|a l IH]; intros [|i] H; try done.
  - injection H as ->. simpl. ring.
  - simpl. rewrite (IH i H). ring.
Qed.


(** ** The ledger invariant *)

Lemma position_eqb_status p q : position_eqb p q = true → status p = status q.
Proof.
  unfold position_eqb. rewrite !andb_true_iff. intros (_ & H).
  by destruct (status p), (status q).
Qed.

(** On a well-formed open list, [remove] drops exactly the reference of the
    position that has just been closed. *)
Lemma list_remove_closed store ref value l :
  NoDup l → ref ∈ l → status value = CLOSED →
  (∀ r, r ∈ l → r ≠ ref → ∃ p, store !! r = Some p ∧ status p = OPEN) →
  ∃ l', Backtester.list_remove store ref value l = Ok l' ∧ NoDup l' ∧
        ∀ r, r ∈ l' ↔ r ∈ l ∧ r ≠ ref.
Proof.
  intros Hnd Hin Hcl. induction l as [|r l IH]; intros Hopen.
  - by apply elem_of_nil in Hin.
  - apply NoDup_cons in Hnd as [Hr Hnd]. simpl.
    destruct (Nat.eqb_spec r ref) as [->|Hne]; simpl.
    + exists l. split; [done|]. split; [done|].
      intros r. rewrite elem_of_cons. split; [|tauto].
      intros H. split; [by right|]. by intros ->.
    + destruct (Hopen r) as (p & Hp & Hst); [by left | done |].
      rewrite Hp.
      destruct (position_eqb p value) eqn:E.
      { apply position_eqb_status in E. congruence. }
      apply elem_of_cons in Hin as [->|Hin]; [done|].
      destruct (IH Hnd Hin) as (l' & -> & Hnd' & Hl').
      { intros r' Hr'. apply Hopen. by right. }
      run_result. exists (r :: l'). split; [done|]. split.
      * apply NoDup_cons. split; [|done]. rewrite Hl'. tauto.
      * intros r'. rewrite !elem_of_cons, Hl'.
        split; [intros [->|[? ?]]; auto | intros [[->|?] ?]; auto].
Qed.

Lemma later_refl s : later s s.
Proof. repeat split; try done. intros ref p Hp. exists p. by repeat split. Qed.

Lemma same_terms_trans p q r : same_terms p q → same_terms q r → same_terms p r.
Proof. unfold same_terms. intuition congruence. Qed.

Lemma later_trans s1 s2 s3 : later s1 s2 → later s2 s3 → later s1 s3.
Proof.
  intros (?&?&?&?&?&?&?&H12) (?&?&?&?&?&?&?&H23).
  repeat split; try congruence.
  intros ref p Hp. destruct (H12 ref p Hp) as (q & Hq & Hpq).
  destruct (H23 ref q Hq) as (r & Hr & Hqr).
  exists r. split; [done|]. by eapply same_terms_trans.
Qed.

(** Replacing a position of the store by one with the same terms. *)
Lemma later_update s ref p p' :
  Backtester.trades s !! ref = Some p → same_terms p p' →
  later s (Backtester.set_trades (<[ref := p']> (Backtester.trades s)) s).
Proof.
  intros Hp Hterms. repeat split; try done. simpl.
  intros r q Hq. destruct (decide (r = ref)) as [->|Hne].
  - rewrite list_lookup_insert_eq by (by eapply lookup_lt_Some).
    exists p'. split; [done|]. congruence.
  - rewrite list_lookup_insert_ne by done. exists q. by repeat split.
Qed.

Lemma later_cash s v : later s (Backtester.set_cash v s).
Proof. repeat split; try done. intros ref p Hp. exists p. by repeat split. Qed.

Lemma later_positions s v : later s (Backtester.set_positions v s).
Proof. repeat split; try done. intros ref p Hp. exists p. by repeat split. Qed.

Lemma elem_of_insert_inv {A} (l : list A) i x y :
  y ∈ <[i:=x]> l → y = x ∨ y ∈ l.
Proof.
  intros (j & Hj)%list_elem_of_lookup.
  apply list_lookup_insert_Some in Hj as [(-> & -> & _)|[_ Hj]]; [by left|].
  right. by eapply list_elem_of_lookup_2.
Qed.

Lemma ledger_inv_mark s ref p v :
  ledger_inv s → Backtester.trades s !! ref = Some p → status p = OPEN →
  ledger_inv (Backtester.set_trades
                (<[ref := set_pnl v p]> (Backtester.trades s)) s).
Proof.
  intros [Hnd Hopen Hcash Hmargin] Hp Hst.
  assert (ref < length (Backtester.trades s))%nat as Hlt
    by (by eapply lookup_lt_Some).
  split; simpl.
  - done.
  - intros r. rewrite Hopen. destruct (decide (r = ref)) as [->|Hne].
    + rewrite list_lookup_insert_eq by done. split; intros _; eauto.
    + by rewrite list_lookup_insert_ne.
  - rewrite Hcash, (sumQ_insert contribution _ _ _ _ Hp).
    unfold contribution. simpl. rewrite Hst. ring.
  - intros q [->|Hq]%elem_of_insert_inv; [|by apply Hmargin].
    simpl. apply Hmargin. by eapply list_elem_of_lookup_2.
Qed.

Lemma ledger_inv_close s ref p v l' :
  ledger_inv s → Backtester.trades s !! ref = Some p → status p = OPEN →
  NoDup l' → (∀ r, r ∈ l' ↔ r ∈ Backtester.positions s ∧ r ≠ ref) →
  ledger_inv
    (Backtester.set_positions l'
       (Backtester.set_cash (Backtester.cash s + (margin_required p + v))
          (Backtester.set_trades
             (<[ref := set_status CLOSED (set_pnl v p)]> (Backtester.trades s))
             s))).
Proof.
  intros [Hnd Hopen Hcash Hmargin] Hp Hst Hnd' Hl'.
  assert (ref < length (Backtester.trades s))%nat as Hlt
    by (by eapply lookup_lt_Some).
  split; simpl.
  - done.
  - intros r. rewrite Hl', Hopen. destruct (decide (r = ref)) as [->|Hne].
    + rewrite list_lookup_insert_eq by done. split; [tauto|].
      by intros (q & [= <-] & Hq).
    + rewrite list_lookup_insert_ne by done. tauto.
  - rewrite Hcash, (sumQ_insert contribution _ _ _ _ Hp).
    unfold contribution. simpl. rewrite Hst. ring.
  - intros q [->|Hq]%elem_of_insert_inv; [|by apply Hmargin].
    simpl. apply Hmargin. by eapply list_elem_of_lookup_2.
Qed.

(** One iteration of the settlement loop keeps the ledger well formed,
    raises nothing, and touches no position but its own. *)
Lemma settle_position_inv fyers date_str ref s p :
  ledger_inv s → Backtester.trades s !! ref = Some p →
  ∃ s', Backtester.settle_position fyers date_str ref s = Ok s' ∧
    ledger_inv s' ∧ later s s' ∧
    length (Backtester.trades s') = length (Backtester.trades s) ∧
    ∀ i, i ≠ ref → Backtester.trades s' !! i = Backtester.trades s !! i.
Proof.
  intros Hinv Hp. unfold Backtester.settle_position. rewrite Hp.
  destruct (status p) eqn:Hst; [|by eauto 10 using later_refl].
  destruct (Backtester.legs_loop _ _ _) as [cur|];
    [|by eauto 10 using later_refl].
  set (v := entry_premium p - cur).
  destruct (Strategy.check_exit_conditions _ _) as [exit_signal|].
  - (* an exit fires *)
    cbn [Backtester.trades Backtester.set_trades Backtester.cash
         Backtester.positions Backtester.set_cash].
    rewrite list_insert_insert_eq.
    destruct (list_remove_closed
                (<[ref := set_status CLOSED (set_pnl v p)]>
                   (Backtester.trades s))
                ref (set_status CLOSED (set_pnl v p))
                (Backtester.positions s)) as (l' & -> & Hnd' & Hl').
    + apply Hinv.
    + apply Hinv. eauto.
    + done.
    + intros r Hr Hne. rewrite list_lookup_insert_ne by done.
      by apply Hinv.
    + run_result. eexists. split; [done|]. split; [|split; [|split]].
      * by apply (ledger_inv_close s ref p v l').
      * eapply later_trans; [|apply later_positions].
        eapply later_trans; [|apply later_cash].
        apply (later_update s ref p); [done|]. by repeat split.
      * simpl. by rewrite length_insert.
      * intros i Hi. simpl. by rewrite list_lookup_insert_ne.
  - (* marked, stays open *)
    eexists. split; [done|]. split; [|split; [|split]].
    + by apply ledger_inv_mark.
    + apply (later_update s ref p); [done|]. by repeat split.
    + simpl. by rewrite length_insert.
    + intros i Hi. simpl. by rewrite list_lookup_insert_ne.
Qed.

Lemma settle_all_inv fyers date_str snapshot s :
  ledger_inv s →
  (∀ r, r ∈ snapshot → (r < length (Backtester.trades s))%nat) →
  ∃ s', Backtester.settle_all fyers date_str snapshot s = Ok s' ∧
    ledger_inv s' ∧ later s s' ∧
    length (Backtester.trades s') = length (Backtester.trades s) ∧
    ∀ i, i ∉ snapshot → Backtester.trades s' !! i = Backtester.trades s !! i.
Proof.
  revert s. induction snapshot as [|ref rest IH]; intros s Hinv Hrefs.
  - exists s. by eauto using later_refl.
  - destruct (lookup_lt_is_Some_2 (Backtester.trades s) ref) as [p Hp].
    { apply Hrefs. by left. }
    destruct (settle_position_inv fyers date_str ref s p Hinv Hp)
      as (s1 & E1 & Hinv1 & Hl1 & Hlen1 & Hfr1).
    destruct (IH s1 Hinv1) as (s2 & E2 & Hinv2 & Hl2 & Hlen2 & Hfr2).
    { intros r Hr. rewrite Hlen1. apply Hrefs. by right. }
    exists s2. simpl. rewrite E1. run_result.
    split; [done|]. split; [done|]. split; [by eapply later_trans|].
    split; [congruence|].
    intros i Hi. apply not_elem_of_cons in Hi as [Hne Hi].
    by rewrite Hfr2, Hfr1.
Qed.

Lemma handle_eod_exits_inv fyers cal day s :
  ledger_inv s →
  ∃ s', Backtester._handle_eod_exits fyers cal (Some day) s = Ok s' ∧
    ledger_inv s' ∧ later s s' ∧
    length (Backtester.trades s') = length (Backtester.trades s).
Proof.
  intros Hinv. unfold Backtester._handle_eod_exits.
  destruct (settle_all_inv fyers (strftime cal day) (Backtester.positions s) s)
    as (s' & E & ? & ? & ? & _); [done| |by eauto].
  intros r Hr. apply Hinv in Hr as (p & Hp & _). by eapply lookup_lt_Some.
Qed.

(** *** Entry *)

(** The state after an executed entry. *)
Lemma execute_trade_cases config option_chain signal_details current_price s :
  let r := Backtester._execute_trade config option_chain signal_details
             current_price s in
  (snd r ≠ Backtester.Executed ∧ fst r = s) ∨
  (snd r = Backtester.Executed ∧
   ∃ chain trade_legs net_premium margin,
     option_chain = Some chain ∧
     Backtester.resolve_legs chain (signal_strategy signal_details)
       = Some (trade_legs, net_premium, margin) ∧
     0 < margin ∧ margin <= Backtester.cash s ∧
     margin <= Backtester.initial_capital s
               * CAPITAL_ALLOCATION_PERCENTAGE config ∧
     fst r =
       Backtester.set_trades
         (Backtester.trades s ++
            [ {| strategy := signal_strategy signal_details;
                 legs := trade_legs; entry_premium := net_premium;
                 margin_required := margin; pnl := 0; status := OPEN |} ])
         (Backtester.set_cash (Backtester.cash s - margin)
            (Backtester.set_positions
               (Backtester.positions s ++ [length (Backtester.trades s)])
               s))).
Proof.
  unfold Backtester._execute_trade.
  destruct option_chain as [chain|]; [|by left].
  destruct (Backtester.resolve_legs _ _) as [[[trade_legs net_premium] margin]|]
    eqn:Elegs; [|by left].
  destruct (Qle_bool margin 0) eqn:E1; [by left|].
  destruct (Qltb (Backtester.cash s) margin) eqn:E2; [by left|].
  destruct (Qltb (Backtester.initial_capital s * _) margin) eqn:E3;
    [by left|].
  right. split; [done|]. exists chain, trade_legs, net_premium, margin.
  apply Qltb_ge in E2, E3.
  assert (0 < margin).
  { apply Qnot_le_lt. intros H. apply Qle_bool_iff in H. congruence. }
  by repeat split.
Qed.

Lemma execute_trade_inv config option_chain signal_details current_price s :
  ledger_inv s →
  ledger_inv (fst (Backtester._execute_trade config option_chain
                     signal_details current_price s)) ∧
  later s (fst (Backtester._execute_trade config option_chain
                  signal_details current_price s)).
Proof.
  intros Hinv.
  destruct (execute_trade_cases config option_chain signal_details
              current_price s) as [[_ ->]|[_ H]];
    [by eauto using later_refl|].
  destruct H as (chain & trade_legs & net_premium & margin & _ & _ &
                 Hpos & _ & _ & ->).
  destruct Hinv as [Hnd Hopen Hcash Hmargin].
  split; [split|]; simpl.
  - apply NoDup_app. split; [done|]. split; [|apply NoDup_singleton].
    intros r Hr ->%list_elem_of_singleton.
    apply Hopen in Hr as (p & Hp & _). apply lookup_lt_Some in Hp. lia.
  - intros r. rewrite elem_of_app, list_elem_of_singleton, Hopen. split.
    + intros [(p & Hp & Hst)| ->].
      * exists p. split; [by apply lookup_app_l_Some | done].
      * eexists. split; [by apply list_lookup_middle | done].
    + intros (p & [Hp|[-> ->]]%lookup_snoc_inv & Hst); eauto.
  - rewrite fmap_app, sumQ_app, Hcash. unfold contribution. simpl. ring.
  - intros p [Hp| ->%list_elem_of_singleton]%elem_of_app; [by apply Hmargin|].
    done.
  - repeat split; try done. simpl. intros r p Hp. exists p.
    split; [by apply lookup_app_l_Some | by repeat split].
Qed.

(** *** Sequences of operations *)

Lemma ledger_inv_init config start_date end_date initial_capital
    underlying_symbol vix_symbol :
  ledger_inv (Backtester.__init__ config start_date end_date initial_capital
                underlying_symbol vix_symbol).
Proof.
  split; simpl.
  - apply NoDup_nil_2.
  - intros r. split; [by intros ?%elem_of_nil | by intros (? & ? & _)].
  - ring.
  - by intros p ?%elem_of_nil.
Qed.

Lemma run_op_inv config op s :
  ledger_inv s →
  ∃ s', run_op config op s = Ok s' ∧ ledger_inv s' ∧ later s s'.
Proof.
  intros Hinv. destruct op as [option_chain sig price | fyers cal day]; simpl.
  - eexists. split; [done|]. by apply execute_trade_inv.
  - destruct (handle_eod_exits_inv fyers cal day s Hinv)
      as (s' & ? & ? & ? & _). eauto.
Qed.

Lemma run_ops_inv config ops s :
  ledger_inv s →
  ∃ s', run_ops config ops s = Ok s' ∧ ledger_inv s' ∧ later s s'.
Proof.
  revert s. induction ops as [|op ops IH]; intros s Hinv; simpl.
  - eauto using later_refl.
  - destruct (run_op_inv config op s Hinv) as (s1 & -> & Hinv1 & Hl1).
    run_result. destruct (IH s1 Hinv1) as (s2 & ? & ? & ?).
    exists s2. eauto using later_trans.
Qed.

Lemma run_ops_app config ops1 ops2 s :
  run_ops config (ops1 ++ ops2) s =
  run_ops config ops1 s ≫= run_ops config ops2.
Proof.
  revert s. induction ops1 as [|op ops1 IH]; intros s; simpl; [done|].
  destruct (run_op config op s) as [s1|e]; run_result; [apply IH | done].
Qed.

(** *** The simulation loop *)

Lemma attempt_inv config fyers sig current_price s n :
  ledger_inv s →
  ledger_inv (fst (Backtester.attempt config fyers sig current_price s n)) ∧
  later s (fst (Backtester.attempt config fyers sig current_price s n)).
Proof.
  intros Hinv. destruct sig as [signal_details|]; simpl.
  - by apply execute_trade_inv.
  - by eauto using later_refl.
Qed.

Lemma loop_body_inv config fyers cal underlying_data vix_map i st st' :
  Backtester.loop_body config fyers cal underlying_data vix_map i st = Ok st' →
  ledger_inv (Backtester.self_ st) →
  ledger_inv (Backtester.self_ st') ∧
  later (Backtester.self_ st) (Backtester.self_ st').
Proof.
  unfold Backtester.loop_body. intros Hrun Hinv.
  destruct (_ <? _)%nat.
  { injection Hrun as <-. by eauto using later_refl. }
  destruct (underlying_data !! i) as [candle|]; [|done].
  assert (∃ s1, match Backtester.prev_day st with
                | Some prev =>
                    if bool_decide
                         (fromtimestamp_date cal (timestamp candle) ≠ prev)
                    then Backtester._handle_eod_exits fyers cal (Some prev)
                           (Backtester.self_ st)
                    else Ok (Backtester.self_ st)
                | None => Ok (Backtester.self_ st)
                end = Ok s1 ∧ ledger_inv s1 ∧ later (Backtester.self_ st) s1)
    as (s1 & E1 & Hinv1 & Hl1).
  { destruct (Backtester.prev_day st) as [prev|];
      [|by eauto using later_refl].
    case_bool_decide; [|by eauto using later_refl].
    destruct (handle_eod_exits_inv fyers cal prev _ Hinv)
      as (s1 & ? & ? & ? & _). eauto. }
  rewrite E1 in Hrun. run_result_in Hrun.
  destruct (DirectionalStrategy.check_entry_signal _ _) as [dir_signal|];
    [|done].
  run_result_in Hrun.
  destruct (attempt_inv config fyers dir_signal (close candle) s1
              (Backtester.requests st) Hinv1) as [Hinv2 Hl2].
  destruct (Backtester.attempt config fyers dir_signal _ s1 _) as [s2 n2].
  destruct (attempt_inv config fyers
              (Backtester.non_directional_signal config
                 (vix_map !! timestamp candle)) (close candle) s2 n2 Hinv2)
    as [Hinv3 Hl3].
  destruct (Backtester.attempt config fyers
              (Backtester.non_directional_signal _ _) _ s2 n2) as [s3 n3].
  injection Hrun as <-. simpl in *. eauto using later_trans.
Qed.

Lemma loop_inv config fyers cal underlying_data vix_map indices st st' :
  Backtester.loop config fyers cal underlying_data vix_map indices st = Ok st' →
  ledger_inv (Backtester.self_ st) →
  ledger_inv (Backtester.self_ st') ∧
  later (Backtester.self_ st) (Backtester.self_ st').
Proof.
  revert st. induction indices as [|i rest IH]; intros st Hrun Hinv; simpl in *.
  - injection Hrun as <-. by eauto using later_refl.
  - destruct (Backtester.loop_body _ _ _ _ _ _ _) as [st1|] eqn:E1; [|done].
    run_result_in Hrun.
    destruct (loop_body_inv _ _ _ _ _ _ _ _ E1 Hinv) as [Hinv1 Hl1].
    destruct (IH st1 Hrun Hinv1). eauto using later_trans.
Qed.


(** ** Ledger properties *)



(** C9: settlement changes nothing of a position but its pnl and status,
    and nothing of the backtester but the store, cash and the open list;
    and through every further sequence of entries and settlements a position
    keeps the strategy label, legs, entry premium and margin it was created
    with. *)
Theorem position_terms_fixed (config : Config) (start_date end_date : string)
    (initial_capital : Q) (underlying_symbol vix_symbol : string)
    (ops1 ops2 : list Op) (fyers : FyersClient) (cal : Calendar) (day : Z) :
  let fresh := Backtester.__init__ config start_date end_date initial_capital
                 underlying_symbol vix_symbol in
  ∃ s1 s2 s3,
    run_ops config ops1 fresh = Ok s1 ∧
    run_ops config (ops1 ++ ops2) fresh = Ok s2 ∧
    Backtester._handle_eod_exits fyers cal (Some day) s1 = Ok s3 ∧
    later s1 s2 ∧ later s1 s3 ∧
    length (Backtester.trades s3) = length (Backtester.trades s1) ∧
    ∀ ref p, Backtester.trades s1 !! ref = Some p →
      (∃ p2, Backtester.trades s2 !! ref = Some p2 ∧
         strategy p2 = strategy p ∧ legs p2 = legs p ∧
         entry_premium p2 = entry_premium p ∧
         margin_required p2 = margin_required p) ∧
      (∃ p3, Backtester.trades s3 !! ref = Some p3 ∧
         p3 = set_status (status p3) (set_pnl (pnl p3) p)).
Proof.
  intros fresh.
  destruct (run_ops_inv config ops1 fresh) as (s1 & E1 & Hinv1 & _);
    [apply ledger_inv_init|].
  destruct (run_ops_inv config ops2 s1 Hinv1) as (s2 & E2 & _ & Hl2).
  destruct (handle_eod_exits_inv fyers cal day s1 Hinv1)
    as (s3 & E3 & _ & Hl3 & Hlen).
  exists s1, s2, s3. split; [done|]. split.
  { by rewrite run_ops_app, E1. }
  split; [done|]. split; [done|]. split; [done|]. split; [done|].
  intros ref p Hp. split.
  - destruct Hl2 as (_ & _ & _ & _ & _ & _ & _ & Hl2).
    destruct (Hl2 ref p Hp) as (p2 & ? & ? & ? & ? & ?). eauto 10.
  - destruct Hl3 as (_ & _ & _ & _ & _ & _ & _ & Hl3).
    destruct (Hl3 ref p Hp) as (p3 & ? & H1 & H2 & H3 & H4).
    exists p3. split; [done|]. destruct p3, p.
    unfold set_status, set_pnl. simpl in *. congruence.
Qed.

(** *** Settlement of a position with an unobtainable leg *)

Lemma legs_loop_unobtainable fetch legs leg acc :
  leg ∈ legs → fetch (symbol (leg_option leg)) = [] →
  Backtester.legs_loop fetch legs acc = None.
Proof.
  intros Hin Hfetch. revert acc.
  induction legs as [|l legs IH]; intros acc; [by apply elem_of_nil in Hin|].
  simpl. apply elem_of_cons in Hin as [<-|Hin]; [by rewrite Hfetch|].
  destruct (fetch (symbol (leg_option l))); [done | by apply IH].
Qed.

Lemma settle_position_skip fyers date_str ref s p leg :
  Backtester.trades s !! ref = Some p → status p = OPEN →
  leg ∈ legs p →
  get_historical_data fyers (symbol (leg_option leg)) date_str date_str = [] →
  Backtester.settle_position fyers date_str ref s = Ok s.
Proof.
  intros Hp Hst Hin Hfetch. unfold Backtester.settle_position.
  rewrite Hp, Hst.
  by rewrite (legs_loop_unobtainable _ _ leg).
Qed.

Lemma settle_all_skip fyers date_str ref p leg snapshot s :
  status p = OPEN → leg ∈ legs p →
  get_historical_data fyers (symbol (leg_option leg)) date_str date_str = [] →
  ledger_inv s →
  (∀ r, r ∈ snapshot → (r < length (Backtester.trades s))%nat) →
  Backtester.trades s !! ref = Some p →
  ∃ s', Backtester.settle_all fyers date_str snapshot s = Ok s' ∧
    ledger_inv s' ∧ Backtester.trades s' !! ref = Some p.
Proof.
  intros Hst Hin Hfetch. revert s.
  induction snapshot as [|r rest IH]; intros s Hinv Hrefs Hp; simpl.
  - eauto.
  - destruct (decide (r = ref)) as [->|Hne].
    + rewrite (settle_position_skip fyers date_str ref s p leg) by done.
      run_result. apply IH; [done| |done].
      intros r Hr. apply Hrefs. by right.
    + destruct (lookup_lt_is_Some_2 (Backtester.trades s) r) as [q Hq].
      { apply Hrefs. by left. }
      destruct (settle_position_inv fyers date_str r s q Hinv Hq)
        as (s1 & -> & Hinv1 & _ & Hlen1 & Hfr1).
      run_result. apply IH; [done| |].
      * intros r' Hr'. rewrite Hlen1. apply Hrefs. by right.
      * by rewrite Hfr1.
Qed.

(** C5: when the closing price of one leg of an open position cannot be
    fetched on the settlement day, the iteration for that position changes
    nothing at all (so not its pnl, not its status, not cash), and after the
    whole settlement of that day the position is as it was and is still in
    the open list. *)
Theorem unobtainable_leg_skips (config : Config) (start_date end_date : string)
    (initial_capital : Q) (underlying_symbol vix_symbol : string)
    (ops : list Op) (fyers : FyersClient) (cal : Calendar) (day : Z)
    (s : Backtester.t) (ref : nat) (p : Position) (leg : Leg) :
  run_ops config ops
    (Backtester.__init__ config start_date end_date initial_capital
       underlying_symbol vix_symbol) = Ok s →
  Backtester.trades s !! ref = Some p → status p = OPEN →
  leg ∈ legs p →
  get_historical_data fyers (symbol (leg_option leg)) (strftime cal day)
    (strftime cal day) = [] →
  Backtester.settle_position fyers (strftime cal day) ref s = Ok s ∧
  ∃ s', Backtester._handle_eod_exits fyers cal (Some day) s = Ok s' ∧
    Backtester.trades s' !! ref = Some p ∧
    ref ∈ Backtester.positions s'.
Proof.
  intros Hrun Hp Hst Hin Hfetch.
  split; [by eapply settle_position_skip|].
  destruct (run_ops_inv config ops _
              (ledger_inv_init config start_date end_date initial_capital
                 underlying_symbol vix_symbol)) as (s0 & E & Hinv & _).
  rewrite Hrun in E. injection E as <-.
  destruct (settle_all_skip fyers (strftime cal day) ref p leg
              (Backtester.positions s) s) as (s' & E & Hinv' & Hp');
    try done.
  { intros r Hr. apply Hinv in Hr as (q & Hq & _). by eapply lookup_lt_Some. }
  exists s'. split; [done|]. split; [done|].
  apply Hinv'. eauto.
Qed.

(** ** The volatility lookup *)



(** ** Sign of the settlement sum *)

(** For each of the three strategies, when every leg closes at its
    last-traded price the settlement sum is the opposite of the entry
    premium: entry counts a sold leg positive and a bought leg negative,
    settlement the reverse. *)
Lemma settlement_sum_opposite chain strategy_type trade_legs net_premium
    margin (fetch : string → list Candle) :
  strategy_type = "Bull Put Spread"%string ∨
  strategy_type = "Bear Call Spread"%string ∨
  strategy_type = "Short Straddle"%string →
  Backtester.resolve_legs chain strategy_type
    = Some (trade_legs, net_premium, margin) →
  (∀ leg, leg ∈ trade_legs →
     ∃ candle rest, fetch (symbol (leg_option leg)) = candle :: rest ∧
       close candle == ltp (leg_option leg)) →
  ∃ current_net_premium,
    Backtester.legs_loop fetch trade_legs 0 = Some current_net_premium ∧
    current_net_premium == - net_premium ∧
    net_premium - current_net_premium == 2 * net_premium.
Proof.
  intros Hstrategy Hlegs Hclose.
  assert (∃ a1 o1 a2 o2,
    trade_legs = [ {| action := a1; leg_option := o1 |};
                   {| action := a2; leg_option := o2 |} ] ∧
    net_premium ==
      (match a1 with SELL => ltp o1 | BUY => - ltp o1 end)
      + (match a2 with SELL => ltp o2 | BUY => - ltp o2 end))
    as (a1 & o1 & a2 & o2 & -> & Hprem).
  { unfold Backtester.resolve_legs in Hlegs.
    destruct Hstrategy as [->|[->| ->]]; simpl in Hlegs;
      repeat match type of Hlegs with
             | context [_find_option ?c ?t ?ty] =>
                 destruct (_find_option c t ty); [|done]
             end;
      injection Hlegs as <- <- _; do 4 eexists; (split; [done|]);
      lazy iota beta; ring. }
  destruct (Hclose {| action := a1; leg_option := o1 |})
    as (c1 & r1 & E1 & H1); [by left|].
  destruct (Hclose {| action := a2; leg_option := o2 |})
    as (c2 & r2 & E2 & H2); [by right; left|].
  simpl in *. rewrite E1, E2. eexists. split; [done|].
  assert (match a2 with
          | BUY => match a1 with BUY => 0 + close c1 | SELL => 0 - close c1 end
                   + close c2
          | SELL => match a1 with BUY => 0 + close c1 | SELL => 0 - close c1 end
                    - close c2
          end == - net_premium) as Hcur.
  { rewrite Hprem. destruct a1, a2; rewrite H1, H2; ring. }
  split; [done|]. rewrite Hcur. ring.
Qed.

(** ** A series shorter than the lookback *)

Lemma loop_all_skipped config fyers cal underlying_data vix_map indices st :
  (∀ i, i ∈ indices →
     (i < DirectionalStrategy.long_ma_period
            (Backtester.dir_strategy (Backtester.self_ st)))%nat) →
  Backtester.loop config fyers cal underlying_data vix_map indices st = Ok st.
Proof.
  induction indices as [|i rest IH]; intros Hskip; simpl; [done|].
  unfold Backtester.loop_body.
  destruct (Nat.ltb_spec i (DirectionalStrategy.long_ma_period
              (Backtester.dir_strategy (Backtester.self_ st)))) as [_|Hge].
  - run_result. apply IH. intros j Hj. apply Hskip. by right.
  - exfalso. assert (i ∈ i :: rest) as Hi by (by left).
    apply Hskip in Hi. lia.
Qed.

(** Whenever both series are non-empty and the underlying one has no more
    candles than the lookback, the run ends in AttributeError. *)
Lemma short_series_raises config fyers cal s :
  let underlying_data :=
    get_historical_data fyers (Backtester.underlying_symbol s)
      (Backtester.start_date s) (Backtester.end_date s) in
  let vix_data :=
    get_historical_data fyers (Backtester.vix_symbol s)
      (Backtester.start_date s) (Backtester.end_date s) in
  underlying_data ≠ [] → vix_data ≠ [] →
  (length underlying_data
   ≤ DirectionalStrategy.long_ma_period (Backtester.dir_strategy s))%nat →
  Backtester.run_backtest config fyers cal s = Raise AttributeError.
Proof.
  intros underlying_data vix_data Hu Hv Hshort.
  unfold Backtester.run_backtest. fold underlying_data vix_data.
  destruct underlying_data as [|u us] eqn:Eu; [done|].
  destruct vix_data as [|v vs] eqn:Ev; [done|].
  rewrite loop_all_skipped; [done|].
  intros i Hi. apply elem_of_seq in Hi. simpl in *. lia.
Qed.

(** ** A series longer than the lookback *)

(** A step at an index of the series returns; from the lookback on it
    records the day of its candle. *)
Lemma loop_body_returns config fyers cal underlying_data vix_map i st :
  ledger_inv (Backtester.self_ st) →
  (0 < DirectionalStrategy.long_ma_period
         (Backtester.dir_strategy (Backtester.self_ st)))%nat →
  (i < length underlying_data)%nat →
  ∃ st',
    Backtester.loop_body config fyers cal underlying_data vix_map i st
      = Ok st' ∧
    (DirectionalStrategy.long_ma_period
       (Backtester.dir_strategy (Backtester.self_ st)) ≤ i →
     is_Some (Backtester.prev_day st'))%nat.
Proof.
  intros Hinv Hlong Hi. unfold Backtester.loop_body.
  destruct (Nat.ltb_spec i (DirectionalStrategy.long_ma_period
              (Backtester.dir_strategy (Backtester.self_ st)))) as [Hlt|Hge].
  { exists st. split; [done|]. lia. }
  destruct (lookup_lt_is_Some_2 underlying_data i Hi) as [candle ->].
  assert (∃ s1, match Backtester.prev_day st with
                | Some prev =>
                    if bool_decide
                         (fromtimestamp_date cal (timestamp candle) ≠ prev)
                    then Backtester._handle_eod_exits fyers cal (Some prev)
                           (Backtester.self_ st)
                    else Ok (Backtester.self_ st)
                | None => Ok (Backtester.self_ st)
                end = Ok s1 ∧ later (Backtester.self_ st) s1)
    as (s1 & -> & Hl1).
  { destruct (Backtester.prev_day st) as [prev|];
      [|by eauto using later_refl].
    case_bool_decide; [|by eauto using later_refl].
    destruct (handle_eod_exits_inv fyers cal prev _ Hinv)
      as (s1 & ? & ? & ? & _). eauto. }
  run_result.
  destruct (check_entry_signal_returns (Backtester.dir_strategy s1)
              (take (i + 1) underlying_data)) as [dir_signal ->].
  { rewrite length_take. lia. }
  run_result.
  destruct (Backtester.attempt config fyers dir_signal _ s1 _) as [s2 n2].
  destruct (Backtester.attempt config fyers
              (Backtester.non_directional_signal _ _) _ s2 n2) as [s3 n3].
  eexists. split; [done|]. by eauto.
Qed.

Lemma loop_returns config fyers cal underlying_data vix_map indices st :
  ledger_inv (Backtester.self_ st) →
  (0 < DirectionalStrategy.long_ma_period
         (Backtester.dir_strategy (Backtester.self_ st)))%nat →
  (∀ i, i ∈ indices → (i < length underlying_data)%nat) →
  ∃ st',
    Backtester.loop config fyers cal underlying_data vix_map indices st
      = Ok st' ∧
    ledger_inv (Backtester.self_ st') ∧
    (is_Some (Backtester.prev_day st) ∨
     (∃ i, i ∈ indices ∧
        (DirectionalStrategy.long_ma_period
           (Backtester.dir_strategy (Backtester.self_ st)) ≤ i)%nat) →
     is_Some (Backtester.prev_day st')).
Proof.
  revert st. induction indices as [|i rest IH]; intros st Hinv Hlong Hin.
  - exists st. split; [done|]. split; [done|].
    intros [?|(i & ?%elem_of_nil & _)]; done.
  - destruct (loop_body_returns config fyers cal underlying_data vix_map i st)
      as (st1 & E1 & Hday1); [done|done|apply Hin; by left|].
    destruct (loop_body_inv _ _ _ _ _ _ _ _ E1 Hinv) as [Hinv1 Hl1].
    assert (Backtester.dir_strategy (Backtester.self_ st1)
            = Backtester.dir_strategy (Backtester.self_ st)) as Hdir
      by apply Hl1.
    destruct (IH st1) as (st2 & E2 & Hinv2 & Hday2).
    { done. } { by rewrite Hdir. } { intros j Hj. apply Hin. by right. }
    exists st2. simpl. rewrite E1. run_result.
    split; [done|]. split; [done|]. rewrite Hdir in Hday2.
    intros [Hprev|(j & [->|Hj]%elem_of_cons & Hge)].
    + apply Hday2. left.
      unfold Backtester.loop_body in E1.
      destruct (_ <? _)%nat; [by injection E1 as <-|].
      destruct (underlying_data !! i); [|done].
      destruct (match Backtester.prev_day st with
                | Some _ => _ | None => _ end); [|done].
      run_result_in E1.
      destruct (DirectionalStrategy.check_entry_signal _ _); [|done].
      run_result_in E1.
      destruct (Backtester.attempt _ _ _ _ _ _).
      destruct (Backtester.attempt _ _ _ _ _ _).
      by injection E1 as <-.
    + apply Hday2. left. by apply Hday1.
    + apply Hday2. right. eauto.
Qed.

(** With more candles than the lookback, a non-empty volatility series and
    a non-zero initial capital, the run completes to a report. *)
Lemma long_series_completes config fyers cal s :
  let underlying_data :=
    get_historical_data fyers (Backtester.underlying_symbol s)
      (Backtester.start_date s) (Backtester.end_date s) in
  let vix_data :=
    get_historical_data fyers (Backtester.vix_symbol s)
      (Backtester.start_date s) (Backtester.end_date s) in
  ledger_inv s →
  (0 < DirectionalStrategy.long_ma_period (Backtester.dir_strategy s)
     < length underlying_data)%nat →
  vix_data ≠ [] → ¬ Backtester.initial_capital s == 0 →
  ∃ s' report,
    Backtester.run_backtest config fyers cal s = Ok (Some (s', report)).
Proof.
  intros underlying_data vix_data Hinv [Hlong Hlen] Hv Hcap.
  unfold Backtester.run_backtest. fold underlying_data vix_data.
  destruct underlying_data as [|u us] eqn:Eu; [simpl in Hlen; lia|].
  destruct vix_data as [|v vs] eqn:Ev; [done|].
  destruct (loop_returns config fyers cal (u :: us)
              (Backtester.make_vix_map (v :: vs)) (seq 0 (length (u :: us)))
              {| Backtester.prev_day := None; Backtester.self_ := s;
                 Backtester.requests := 0 |})
    as (st & Eloop & Hinv1 & Hday); [done|done| |].
  { intros i Hi%elem_of_seq. lia. }
  rewrite Eloop. run_result.
  destruct Hday as [day Hday].
  { right. exists (DirectionalStrategy.long_ma_period
                     (Backtester.dir_strategy s)).
    split; [|done]. apply elem_of_seq. simpl in *. lia. }
  rewrite Hday.
  destruct (handle_eod_exits_inv fyers cal day _ Hinv1)
    as (s2 & -> & _ & Hl2 & _).
  run_result. unfold Backtester.generate_report.
  destruct (loop_inv _ _ _ _ _ _ _ _ Eloop Hinv) as [_ Hl1].
  assert (Backtester.initial_capital s2 = Backtester.initial_capital s) as ->.
  { destruct Hl1 as (_ & _ & H1 & _), Hl2 as (_ & _ & H2 & _).
    simpl in H1. congruence. }
  destruct (Qeq_bool (Backtester.initial_capital s) 0) eqn:E.
  { by apply Qeq_bool_iff in E. }
  run_result. eauto.
Qed.

(** * Evaluations *)

Example sample_entry :
  Backtester.trades Sample.after_entry = [Sample.spread] ∧
  Backtester.positions Sample.after_entry = [0%nat] ∧
  Backtester.cash Sample.after_entry == 100000 - 4.
Proof. by vm_compute. Qed.

Example sample_crossing :
  DirectionalStrategy.check_entry_signal Sample.fast_strategy Sample.crossing
  = Ok (Some DirectionalStrategy.bull_put_spread).
Proof. by vm_compute. Qed.

Example first_tie_wins :
  _find_option Sample.tied_chain (3#5) "PE"
  = Some (Sample.contract "A" "PE" 100 1 (-(1#2))).
Proof. by vm_compute. Qed.

(** C1, on the code: a Bull Put Spread is entered at last-traded prices 10
    and 4 (entry premium 6) and settled on a day on which both legs close at
    10 and 4.  The recomputed net premium is -6, not 6, so the stored pnl is
    12, not 0, and the position is closed as a take-profit. *)
Theorem unchanged_prices_pnl :
  Backtester.trades Sample.after_entry = [Sample.spread] ∧
  (∀ leg, leg ∈ legs Sample.spread →
     get_historical_data Sample.fyers_unchanged (symbol (leg_option leg))
       (strftime Sample.calendar 0) (strftime Sample.calendar 0)
     = [Sample.flat_candle 0 (ltp (leg_option leg))]) ∧
  Backtester.legs_loop
    (λ s, get_historical_data Sample.fyers_unchanged s
            (strftime Sample.calendar 0) (strftime Sample.calendar 0))
    (legs Sample.spread) 0 = Some (0 - 10 + 4) ∧
  ∃ s p, Backtester._handle_eod_exits Sample.fyers_unchanged Sample.calendar
           (Some 0%Z) Sample.after_entry = Ok s ∧
    Backtester.trades s = [p] ∧
    entry_premium p == 6 ∧ pnl p == 12 ∧ ¬ pnl p == 0 ∧
    status p = CLOSED ∧ Backtester.positions s = [] ∧
    Backtester.cash s == 100000 + 12.
Proof.
  split; [by vm_compute|]. split.
  { intros leg Hin. repeat (apply elem_of_cons in Hin as [->|Hin]; [done|]).
    by apply elem_of_nil in Hin. }
  split; [by vm_compute|].
  eexists _, _. split; [by vm_compute|]. split; [done|].
  by vm_compute.
Qed.

(** C2, on the code: with one underlying candle and one volatility candle
    every index is below the 55-candle lookback, [prev_day] is still [None]
    after the loop, and the settlement call for the last day raises
    AttributeError: no report is produced. *)
Theorem one_candle_run_raises :
  get_historical_data Sample.fyers_one_candle "NSE:NIFTY50-INDEX"
    "1970-01-01" "1970-01-31" = [Sample.flat_candle 0 100] ∧
  get_historical_data Sample.fyers_one_candle "NSE:INDIAVIX-INDEX"
    "1970-01-01" "1970-01-31" = [Sample.flat_candle 0 100] ∧
  Backtester.run_backtest Sample.config Sample.fyers_one_candle
    Sample.calendar (Sample.backtester 100000) = Raise AttributeError.
Proof. by vm_compute. Qed.

(** ** Instances *)




Lemma unobtainable_leg_skips_witness :
  (run_ops Sample.config
     [Entry (Some Sample.chain) DirectionalStrategy.bull_put_spread 100]
     (Sample.backtester 100000) = Ok Sample.after_entry ∧
   Backtester.trades Sample.after_entry !! 0%nat = Some Sample.spread ∧
   status Sample.spread = OPEN ∧
   get_historical_data Sample.fyers_no_closes "NIFTY-90-PE"
     (strftime Sample.calendar 0) (strftime Sample.calendar 0) = []) ∧
  Backtester.settle_position Sample.fyers_no_closes
    (strftime Sample.calendar 0) 0 Sample.after_entry = Ok Sample.after_entry ∧
  ∃ s', Backtester._handle_eod_exits Sample.fyers_no_closes Sample.calendar
          (Some 0%Z) Sample.after_entry = Ok s' ∧
    Backtester.trades s' !! 0%nat = Some Sample.spread ∧
    0%nat ∈ Backtester.positions s'.
Proof.
  assert (run_ops Sample.config
            [Entry (Some Sample.chain) DirectionalStrategy.bull_put_spread 100]
            (Sample.backtester 100000) = Ok Sample.after_entry) as Hrun
    by reflexivity.
  assert (Backtester.trades Sample.after_entry !! 0%nat = Some Sample.spread)
    as Hp by (vm_compute; reflexivity).
  assert ({| action := BUY; leg_option := Sample.put_90 |}
          ∈ legs Sample.spread) as Hleg by (right; left).
  split; [by repeat split|].
  exact (unobtainable_leg_skips Sample.config _ _ _ _ _ _
           Sample.fyers_no_closes Sample.calendar 0%Z Sample.after_entry 0
           Sample.spread _ Hrun Hp eq_refl Hleg eq_refl).
Defined.





(** * Further properties *)

(** ** Option selector *)

Lemma find_option_found option_chain target_delta ty o :
  _find_option option_chain target_delta ty = Some o →
  o ∈ options_chain option_chain ∧ option_type o = ty.
Proof.
  unfold _find_option.
  pose proof (scanned_fold target_delta ty (options_chain option_chain)) as H.
  destruct (fold_left _ _ _) as [[best|] m]; simpl; [|done].
  intros [= ->]. destruct H as (_ & k & Hk & Hty & _).
  split; [by eapply list_elem_of_lookup_2 | done].
Qed.

Lemma find_option_not_found option_chain target_delta ty :
  (∀ o, o ∈ options_chain option_chain → option_type o ≠ ty) →
  _find_option option_chain target_delta ty = None.
Proof.
  intros Hnone.
  destruct (_find_option option_chain target_delta ty) as [o|] eqn:E; [|done].
  apply find_option_found in E as [Hin Hty]. by destruct (Hnone o Hin).
Qed.

(** X1.  Contracts of the other type play no part in the selection: the scan of
    the whole chain selects what the scan of the contracts of the requested
    type alone selects. *)
Theorem find_option_other_types_ignored (option_chain : OptionChain)
    (target_delta : Q) (ty : string) :
  _find_option option_chain target_delta ty =
  _find_option
    {| options_chain :=
         filter (λ o, option_type o = ty) (options_chain option_chain) |}
    target_delta ty.
Proof.
  unfold _find_option. simpl. generalize (@None OptionContract, Inf).
  induction (options_chain option_chain) as [|o l IH]; intros acc; [done|].
  rewrite filter_cons. simpl. rewrite IH. case_decide as Hty.
  - done.
  - f_equal. rewrite find_option_step_eq.
    by destruct (String.eqb_spec (option_type o) ty).
Qed.

Lemma delta_diff_of_moneyness t o o' :
  same_moneyness o o' → delta_diff_of t o == delta_diff_of t o'.
Proof. intros [_ H]. unfold delta_diff_of. by rewrite H. Qed.

Lemma scans_agree_step t ty pre pre' acc acc' o o' :
  length pre = length pre' →
  same_moneyness o o' → scans_agree pre pre' acc acc' →
  scans_agree (pre ++ [o]) (pre' ++ [o'])
    (find_option_step t ty acc o) (find_option_step t ty acc' o').
Proof.
  intros Hlen Hoo [Hm Hb]. rewrite !find_option_step_eq.
  assert (scans_agree (pre ++ [o]) (pre' ++ [o']) acc acc') as Hkeep.
  { split; [done|]. destruct (fst acc), (fst acc'); try done.
    destruct Hb as (k & ? & ?). exists k.
    split; by apply lookup_app_l_Some. }
  destruct Hoo as [Hty Hd]. rewrite <- Hty.
  destruct (negb _); [done|].
  rewrite (fl_lt_proper _ (Fin (delta_diff_of t o')) _ (snd acc'));
    [|by apply delta_diff_of_moneyness|done].
  destruct (fl_lt _ _); [|done].
  split; simpl; [by apply delta_diff_of_moneyness|].
  exists (length pre). split; [by apply list_lookup_middle|].
  by apply list_lookup_middle.
Qed.

Lemma scans_agree_fold t ty suf suf' :
  Forall2 same_moneyness suf suf' →
  ∀ pre pre' acc acc',
    length pre = length pre' → scans_agree pre pre' acc acc' →
    scans_agree (pre ++ suf) (pre' ++ suf')
      (fold_left (find_option_step t ty) suf acc)
      (fold_left (find_option_step t ty) suf' acc').
Proof.
  induction 1 as [|o o' suf suf' Hoo Hsuf IH]; intros pre pre' acc acc' Hlen H.
  - by rewrite !app_nil_r.
  - simpl. rewrite (cons_middle o pre suf), (cons_middle o' pre' suf'),
      !app_assoc.
    apply IH; [rewrite !length_app; simpl; lia|].
    by apply scans_agree_step.
Qed.

(** X2.  The selection reads a delta only through its absolute value: on two
    snapshots whose contracts have, position by position, the same type and
    the same [abs(delta)], the selector picks the contract at the same
    position, or finds none in both. *)
Theorem find_option_sign_blind (option_chain option_chain' : OptionChain)
    (target_delta : Q) (ty : string) :
  Forall2 same_moneyness (options_chain option_chain)
    (options_chain option_chain') →
  match _find_option option_chain target_delta ty,
        _find_option option_chain' target_delta ty with
  | None, None => True
  | Some b, Some b' =>
      ∃ k, options_chain option_chain !! k = Some b ∧
           options_chain option_chain' !! k = Some b'
  | _, _ => False
  end.
Proof.
  intros H. unfold _find_option.
  by destruct (scans_agree_fold target_delta ty _ _ H [] [] (None, Inf)
                 (None, Inf) eq_refl) as [_ ?].
Qed.

(** ** Entry *)

Lemma resolve_legs_shape chain label trade_legs net_premium margin :
  Backtester.resolve_legs chain label
    = Some (trade_legs, net_premium, margin) →
  (known_strategy label ∧ length trade_legs = 2%nat ∧
   ∀ leg, leg ∈ trade_legs → leg_option leg ∈ options_chain chain) ∨
  (¬ known_strategy label ∧ trade_legs = [] ∧ margin = 0).
Proof.
  unfold Backtester.resolve_legs, known_strategy.
  repeat match goal with
         | |- context [String.eqb label ?s] =>
             destruct (String.eqb_spec label s) as [->|?]
         end;
    [..|intros [= <- _ <-]; right; by intuition];
    repeat match goal with
           | |- context [_find_option ?c ?t ?ty] =>
               let E := fresh "E" in
               destruct (_find_option c t ty) eqn:E; [|done]
           end;
    intros [= <- _ _]; left; (split; [by auto|]); (split; [done|]);
    intros leg Hin;
    repeat (apply elem_of_cons in Hin as [->|Hin];
            [by eapply find_option_found|]);
    by apply elem_of_nil in Hin.
Qed.


(** X4.  Without a chain, or on a chain that has no contract of a type the
    strategy needs (puts for a Bull Put Spread, calls for a Bear Call Spread,
    both for a Short Straddle), the attempt changes nothing. *)
Theorem entry_without_contracts (config : Config) (signal_details : Signal)
    (current_price : Q) (s : Backtester.t) :
  Backtester._execute_trade config None signal_details current_price s
    = (s, Backtester.NoChain) ∧
  ∀ chain ty,
    (∀ o, o ∈ options_chain chain → option_type o ≠ ty) →
    (signal_strategy signal_details = "Bull Put Spread"%string ∧
       ty = "PE"%string) ∨
    (signal_strategy signal_details = "Bear Call Spread"%string ∧
       ty = "CE"%string) ∨
    (signal_strategy signal_details = "Short Straddle"%string ∧
       (ty = "CE"%string ∨ ty = "PE"%string)) →
    Backtester._execute_trade config (Some chain) signal_details
      current_price s = (s, Backtester.NoOptions).
Proof.
  split; [done|]. intros chain ty Hnone Hneeds.
  unfold Backtester._execute_trade, Backtester.resolve_legs.
  destruct Hneeds as [[-> ->]|[[-> ->]|[-> [->| ->]]]]; simpl;
    rewrite ?(find_option_not_found chain _ _ Hnone); try done.
  by destruct (_find_option chain (1#2) "CE").
Qed.

(** X5.  When the 0.6-delta and the 0.3-delta selection of a spread fall on the
    same contract (as they do on a chain with a single contract of the
    type), the net premium and the margin are 0 and the entry is rejected. *)
Theorem degenerate_spread_rejected (config : Config) (chain : OptionChain)
    (signal_details : Signal) (current_price : Q) (s : Backtester.t)
    (ty : string) (o : OptionContract) :
  (signal_strategy signal_details = "Bull Put Spread"%string ∧
     ty = "PE"%string) ∨
  (signal_strategy signal_details = "Bear Call Spread"%string ∧
     ty = "CE"%string) →
  _find_option chain (3#5) ty = Some o →
  _find_option chain (3#10) ty = Some o →
  Backtester._execute_trade config (Some chain) signal_details current_price s
    = (s, Backtester.MoreMargin).
Proof.
  intros Hlabel Hsell Hbuy.
  unfold Backtester._execute_trade, Backtester.resolve_legs.
  assert (Qle_bool (strike_price o - strike_price o - (ltp o - ltp o)) 0
          = true) as Hzero.
  { apply Qle_bool_iff. lra. }
  destruct Hlabel as [[-> ->]|[-> ->]]; simpl; rewrite Hsell, Hbuy;
    by rewrite Hzero.
Qed.

(** ** Exit rule *)

(** X6.  With non-negative fractions, a position whose entry premium is zero or
    negative meets an exit condition whatever its pnl: it is closed on the
    first day on which all its legs have a closing price. *)
Theorem exit_always_on_nonpositive_premium (self : Strategy.t)
    (position : Position) :
  0 <= Strategy.sl_pct self → 0 <= Strategy.tp_pct self →
  entry_premium position <= 0 →
  Strategy.check_exit_conditions self position ≠ None.
Proof.
  intros Hsl Htp He. unfold Strategy.check_exit_conditions.
  destruct (Qle_bool (pnl position) _) eqn:E1; [done|].
  destruct (Qle_bool _ (pnl position)) eqn:E2; [done|].
  exfalso.
  assert (¬ pnl position
            <= -1 * Strategy.sl_pct self * entry_premium position) as H1.
  { intros H. apply Qle_bool_iff in H. congruence. }
  assert (¬ Strategy.tp_pct self * entry_premium position <= pnl position)
    as H2.
  { intros H. apply Qle_bool_iff in H. congruence. }
  generalize dependent (pnl position).
  generalize dependent (entry_premium position).
  generalize dependent (Strategy.sl_pct self).
  generalize dependent (Strategy.tp_pct self).
  intros tp Htp sl Hsl e He p _ _ H1 H2. nra.
Qed.


(** ** Settlement *)


Lemma set_pnl_same p : set_pnl (pnl p) p = p.
Proof. by destruct p. Qed.

Lemma set_trades_same s : Backtester.set_trades (Backtester.trades s) s = s.
Proof. by destruct s. Qed.

Lemma settle_position_settled fyers date_str ref s :
  is_Some (Backtester.trades s !! ref) →
  settled_at fyers date_str s ref →
  Backtester.settle_position fyers date_str ref s = Ok s.
Proof.
  intros [p Hp] Hsettled. unfold Backtester.settle_position. rewrite Hp.
  destruct (status p) eqn:Hst; [|done].
  specialize (Hsettled p Hp Hst).
  destruct (Backtester.legs_loop _ _ _) as [cur|]; [|done].
  destruct Hsettled as [Hpnl Hexit].
  rewrite <- Hpnl, set_pnl_same, list_insert_id by done.
  rewrite set_trades_same. by rewrite Hexit.
Qed.

Lemma settle_all_settled_noop fyers date_str snapshot s :
  (∀ ref, ref ∈ snapshot →
     is_Some (Backtester.trades s !! ref) ∧ settled_at fyers date_str s ref) →
  Backtester.settle_all fyers date_str snapshot s = Ok s.
Proof.
  induction snapshot as [|ref rest IH]; intros H; simpl; [done|].
  destruct (H ref) as [Hp Hs]; [by left|].
  rewrite settle_position_settled by done. run_result.
  apply IH. intros r Hr. apply H. by right.
Qed.

Lemma settle_position_settles fyers date_str ref s s' p :
  Backtester.trades s !! ref = Some p →
  Backtester.settle_position fyers date_str ref s = Ok s' →
  settled_at fyers date_str s' ref.
Proof.
  intros Hp. unfold Backtester.settle_position. rewrite Hp.
  assert (ref < length (Backtester.trades s))%nat as Hlt
    by (by eapply lookup_lt_Some).
  destruct (status p) eqn:Hst.
  - destruct (Backtester.legs_loop _ _ _) as [cur|] eqn:Hlegs.
    + destruct (Strategy.check_exit_conditions _ _) as [exit_signal|] eqn:Hexit.
      * cbn [Backtester.trades Backtester.set_trades Backtester.cash
             Backtester.positions Backtester.set_cash].
        destruct (Backtester.list_remove _ _ _ _) as [l|]; [|done].
        run_result. intros [= <-] q Hq Hopen. simpl in Hq.
        rewrite list_insert_insert_eq, list_lookup_insert_eq in Hq by done.
        by injection Hq as <-.
      * intros [= <-] q Hq Hopen. simpl in Hq.
        rewrite list_lookup_insert_eq in Hq by done. injection Hq as <-.
        simpl. rewrite Hlegs. split; [done|]. exact Hexit.
    + intros [= <-] q Hq Hopen. rewrite Hp in Hq. injection Hq as <-.
      by rewrite Hlegs.
  - intros [= <-] q Hq Hopen. congruence.
Qed.

Lemma settled_at_frame fyers date_str s s' ref :
  Backtester.trades s' !! ref = Backtester.trades s !! ref →
  Backtester.dir_strategy s' = Backtester.dir_strategy s →
  settled_at fyers date_str s ref → settled_at fyers date_str s' ref.
Proof. unfold settled_at. intros -> ->. done. Qed.

Lemma settle_all_settles fyers date_str snapshot s s' :
  ledger_inv s →
  (∀ r, r ∈ snapshot → (r < length (Backtester.trades s))%nat) →
  Backtester.settle_all fyers date_str snapshot s = Ok s' →
  ∀ ref, ref ∈ snapshot → settled_at fyers date_str s' ref.
Proof.
  revert s. induction snapshot as [|r rest IH]; intros s Hinv Hrefs Hrun ref Hin.
  { by apply elem_of_nil in Hin. }
  simpl in Hrun.
  destruct (lookup_lt_is_Some_2 (Backtester.trades s) r) as [p Hp].
  { apply Hrefs. by left. }
  destruct (settle_position_inv fyers date_str r s p Hinv Hp)
    as (s1 & E1 & Hinv1 & _ & Hlen1 & _).
  rewrite E1 in Hrun. run_result_in Hrun.
  assert (∀ r', r' ∈ rest → (r' < length (Backtester.trades s1))%nat)
    as Hrefs1.
  { intros r' Hr'. rewrite Hlen1. apply Hrefs. by right. }
  destruct (decide (ref ∈ rest)) as [Hrest|Hrest]; [by eapply IH|].
  apply elem_of_cons in Hin as [->|?]; [|done].
  destruct (settle_all_inv fyers date_str rest s1 Hinv1 Hrefs1)
    as (s2 & E2 & _ & Hl2 & _ & Hfr2).
  rewrite E2 in Hrun. injection Hrun as <-.
  eapply settled_at_frame; [by apply Hfr2 | apply Hl2 |].
  by eapply settle_position_settles.
Qed.

(** X8.  Settling the same day a second time changes nothing: in every ledger
    that entries and settlements can reach, the settlement of a day returns a
    ledger on which the settlement of that day is the identity.  A pnl is
    recomputed from the entry premium, not accumulated. *)
Theorem settlement_idempotent (config : Config) (start_date end_date : string)
    (initial_capital : Q) (underlying_symbol vix_symbol : string)
    (ops : list Op) (fyers : FyersClient) (cal : Calendar) (day : Z) :
  let fresh := Backtester.__init__ config start_date end_date initial_capital
                 underlying_symbol vix_symbol in
  ∃ s s',
    run_ops config ops fresh = Ok s ∧
    Backtester._handle_eod_exits fyers cal (Some day) s = Ok s' ∧
    Backtester._handle_eod_exits fyers cal (Some day) s' = Ok s'.
Proof.
  intros fresh.
  destruct (run_ops_inv config ops fresh)
    as (s & Hs & Hinv & _); [apply ledger_inv_init|].
  assert (∀ r, r ∈ Backtester.positions s →
            (r < length (Backtester.trades s))%nat) as Hrefs.
  { intros r Hr. apply Hinv in Hr as (p & Hp & _). by eapply lookup_lt_Some. }
  destruct (settle_all_inv fyers (strftime cal day) (Backtester.positions s) s
              Hinv Hrefs) as (s' & Hs' & Hinv' & _ & Hlen & Hframe).
  exists s, s'. split; [done|]. split; [done|].
  unfold Backtester._handle_eod_exits.
  apply settle_all_settled_noop. intros ref Href.
  pose proof Href as (p' & Hp' & Hopen')%Hinv'.
  split; [by eauto|].
  destruct (decide (ref ∈ Backtester.positions s)) as [Hin|Hnotin].
  - exact (settle_all_settles _ _ _ _ _ Hinv Hrefs Hs' ref Hin).
  - exfalso. apply Hnotin, Hinv. exists p'. by rewrite <- Hframe.
Qed.

(** X9.  What the settlement of a day leaves open: in every reachable ledger,
    after the settlement each position still in the open list is OPEN in the
    store and either has a leg without a closing price that day, or carries
    the pnl of the day, [entry_premium] minus the signed sum of the closes
    (sold legs negative, bought legs positive), and meets no exit
    condition. *)
Theorem settlement_leaves_open (config : Config) (start_date end_date : string)
    (initial_capital : Q) (underlying_symbol vix_symbol : string)
    (ops : list Op) (fyers : FyersClient) (cal : Calendar) (day : Z) :
  let fresh := Backtester.__init__ config start_date end_date initial_capital
                 underlying_symbol vix_symbol in
  ∃ s s',
    run_ops config ops fresh = Ok s ∧
    Backtester._handle_eod_exits fyers cal (Some day) s = Ok s' ∧
    ∀ ref, ref ∈ Backtester.positions s' →
      ∃ p, Backtester.trades s' !! ref = Some p ∧ status p = OPEN ∧
        match Backtester.legs_loop
                (λ sym, get_historical_data fyers sym (strftime cal day)
                          (strftime cal day)) (legs p) 0
        with
        | None => True
        | Some current_net_premium =>
            pnl p = entry_premium p - current_net_premium ∧
            Strategy.check_exit_conditions
              (DirectionalStrategy.base (Backtester.dir_strategy s')) p = None
        end.
Proof.
  intros fresh.
  destruct (run_ops_inv config ops fresh)
    as (s & Hs & Hinv & _); [apply ledger_inv_init|].
  assert (∀ r, r ∈ Backtester.positions s →
            (r < length (Backtester.trades s))%nat) as Hrefs.
  { intros r Hr. apply Hinv in Hr as (p & Hp & _). by eapply lookup_lt_Some. }
  destruct (settle_all_inv fyers (strftime cal day) (Backtester.positions s) s
              Hinv Hrefs) as (s' & Hs' & Hinv' & _ & Hlen & Hframe).
  exists s, s'. split; [done|]. split; [done|].
  intros ref Href.
  pose proof Href as (p & Hp & Hopen)%Hinv'.
  exists p. split; [done|]. split; [done|].
  destruct (decide (ref ∈ Backtester.positions s)) as [Hin|Hnotin].
  - exact (settle_all_settles _ _ _ _ _ Hinv Hrefs Hs' ref Hin p Hp Hopen).
  - exfalso. apply Hnotin, Hinv. exists p. by rewrite <- Hframe.
Qed.

Lemma run_op_closed config op s s' ref p :
  ledger_inv s → run_op config op s = Ok s' →
  Backtester.trades s !! ref = Some p → status p = CLOSED →
  Backtester.trades s' !! ref = Some p.
Proof.
  intros Hinv Hrun Hp Hst.
  destruct op as [option_chain sig price | fyers cal day]; simpl in Hrun.
  - injection Hrun as <-.
    destruct (execute_trade_cases config option_chain sig price s)
      as [[_ ->]|[_ (? & ? & ? & ? & _ & _ & _ & _ & _ & ->)]]; [done|].
    simpl. by apply lookup_app_l_Some.
  - unfold Backtester._handle_eod_exits in Hrun.
    destruct (settle_all_inv fyers (strftime cal day)
                (Backtester.positions s) s Hinv)
      as (s2 & E2 & _ & _ & _ & Hframe).
    { intros r Hr. apply Hinv in Hr as (q & Hq & _). by eapply lookup_lt_Some. }
    rewrite E2 in Hrun. injection Hrun as <-.
    rewrite Hframe; [done|].
    intros (q & Hq & Hopen)%Hinv. congruence.
Qed.

Lemma run_ops_closed config ops s s' ref p :
  ledger_inv s → run_ops config ops s = Ok s' →
  Backtester.trades s !! ref = Some p → status p = CLOSED →
  Backtester.trades s' !! ref = Some p.
Proof.
  revert s. induction ops as [|op ops IH]; intros s Hinv Hrun Hp Hst;
    simpl in Hrun.
  - by injection Hrun as <-.
  - destruct (run_op_inv config op s Hinv) as (s1 & E1 & Hinv1 & _).
    rewrite E1 in Hrun. run_result_in Hrun.
    apply (IH s1 Hinv1 Hrun); [|done].
    exact (run_op_closed config op s s1 ref p Hinv E1 Hp Hst).
Qed.

(** X10.  A closed position is final: whatever entries and settlements follow,
    the record of a position that is CLOSED stays exactly as it was closed
    (its pnl included), and it never returns to the open list. *)
Theorem closed_positions_final (config : Config) (start_date end_date : string)
    (initial_capital : Q) (underlying_symbol vix_symbol : string)
    (ops1 ops2 : list Op) :
  let fresh := Backtester.__init__ config start_date end_date initial_capital
                 underlying_symbol vix_symbol in
  ∃ s1 s2,
    run_ops config ops1 fresh = Ok s1 ∧
    run_ops config (ops1 ++ ops2) fresh = Ok s2 ∧
    ∀ ref p, Backtester.trades s1 !! ref = Some p → status p = CLOSED →
      Backtester.trades s2 !! ref = Some p ∧
      ref ∉ Backtester.positions s2.
Proof.
  intros fresh.
  destruct (run_ops_inv config ops1 fresh)
    as (s1 & E1 & Hinv1 & _); [apply ledger_inv_init|].
  destruct (run_ops_inv config ops2 s1 Hinv1) as (s2 & E2 & Hinv2 & _).
  exists s1, s2. split; [done|]. split.
  { by rewrite run_ops_app, E1. }
  intros ref p Hp Hst.
  assert (Backtester.trades s2 !! ref = Some p) as Hp2
    by exact (run_ops_closed config ops2 s1 s2 ref p Hinv1 E2 Hp Hst).
  split; [done|]. intros (q & Hq & Hopen)%Hinv2. congruence.
Qed.

Lemma list_remove_sublist store ref value l l' :
  Backtester.list_remove store ref value l = Ok l' → l' `sublist_of` l.
Proof.
  revert l'. induction l as [|r l IH]; intros l'; simpl; [done|].
  destruct (_ || _).
  - intros [= <-]. by apply sublist_cons.
  - destruct (Backtester.list_remove store ref value l) as [l''|]; [|done].
    run_result. intros [= <-]. apply sublist_skip. by apply IH.
Qed.

Lemma settle_position_shrinks fyers date_str ref s s' :
  Backtester.settle_position fyers date_str ref s = Ok s' →
  Backtester.positions s' `sublist_of` Backtester.positions s ∧
  length (Backtester.trades s') = length (Backtester.trades s).
Proof.
  unfold Backtester.settle_position.
  destruct (Backtester.trades s !! ref) as [p|]; [|done].
  destruct (status p); [|by intros [= <-]].
  destruct (Backtester.legs_loop _ _ _) as [cur|]; [|by intros [= <-]].
  destruct (Strategy.check_exit_conditions _ _).
  - cbn [Backtester.trades Backtester.set_trades Backtester.cash
         Backtester.positions Backtester.set_cash].
    destruct (Backtester.list_remove _ _ _ _) as [l|] eqn:E; [|done].
    run_result. intros [= <-]. simpl. split.
    + by eapply list_remove_sublist.
    + by rewrite !length_insert.
  - intros [= <-]. simpl. by rewrite length_insert.
Qed.

Lemma settle_all_shrinks fyers date_str snapshot s s' :
  Backtester.settle_all fyers date_str snapshot s = Ok s' →
  Backtester.positions s' `sublist_of` Backtester.positions s ∧
  length (Backtester.trades s') = length (Backtester.trades s).
Proof.
  revert s. induction snapshot as [|r rest IH]; intros s; simpl.
  - by intros [= <-].
  - destruct (Backtester.settle_position fyers date_str r s) as [s1|] eqn:E1;
      [|done].
    run_result. intros [H1 H2]%IH.
    apply settle_position_shrinks in E1 as [H3 H4].
    split; [by etrans | congruence].
Qed.

(** X11.  Settlement only closes: in every reachable ledger it returns, keeps
    the number of stored trades, leaves the open list a sublist of what it
    was (same order), reopens nothing, and every reference that left the open
    list belongs to a position that is now CLOSED. *)
Theorem settlement_only_closes (config : Config) (start_date end_date : string)
    (initial_capital : Q) (underlying_symbol vix_symbol : string)
    (ops : list Op) (fyers : FyersClient) (cal : Calendar) (day : Z) :
  let fresh := Backtester.__init__ config start_date end_date initial_capital
                 underlying_symbol vix_symbol in
  ∃ s s',
    run_ops config ops fresh = Ok s ∧
    Backtester._handle_eod_exits fyers cal (Some day) s = Ok s' ∧
    length (Backtester.trades s') = length (Backtester.trades s) ∧
    Backtester.positions s' `sublist_of` Backtester.positions s ∧
    (∀ ref p p', Backtester.trades s !! ref = Some p →
       Backtester.trades s' !! ref = Some p' →
       status p' = OPEN → status p = OPEN) ∧
    (∀ ref, ref ∈ Backtester.positions s → ref ∉ Backtester.positions s' →
       ∃ p', Backtester.trades s' !! ref = Some p' ∧ status p' = CLOSED).
Proof.
  intros fresh.
  destruct (run_ops_inv config ops fresh)
    as (s & Hs & Hinv & _); [apply ledger_inv_init|].
  destruct (handle_eod_exits_inv fyers cal day s Hinv)
    as (s' & Hs' & Hinv' & Hlater & Hlen).
  exists s, s'. split; [done|]. split; [done|]. split; [done|].
  split; [|split].
  - unfold Backtester._handle_eod_exits in Hs'.
    by apply settle_all_shrinks in Hs' as [? _].
  - intros ref p p' Hp Hp' Hopen. destruct (status p) eqn:Hst; [done|].
    assert (Backtester.trades s' !! ref = Some p) as Hp2.
    { exact (run_op_closed config (Settlement fyers cal day) s s' ref p
               Hinv Hs' Hp Hst). }
    congruence.
  - intros ref (p & Hp & _)%Hinv Hout.
    destruct Hlater as (_ & _ & _ & _ & _ & _ & _ & Hterms).
    destruct (Hterms ref p Hp) as (p' & Hp' & _).
    exists p'. split; [done|]. destruct (status p') eqn:Hst; [|done].
    exfalso. apply Hout, Hinv'. eauto.
Qed.

Lemma list_remove_present store ref value l :
  ref ∈ l → ∃ l', Backtester.list_remove store ref value l = Ok l'.
Proof.
  induction l as [|r l IH]; intros Hin; [by apply elem_of_nil in Hin|].
  simpl. destruct (_ || _) eqn:E; [by eauto|].
  apply elem_of_cons in Hin as [->|Hin].
  { by rewrite Nat.eqb_refl in E. }
  destruct (IH Hin) as [l' ->]. run_result. by eauto.
Qed.

(** X12.  The first settlement of a position at unchanged prices: when an entry
    is executed and, on the settlement day, every contract of its chain
    closes at its last-traded price, the iteration for the new position
    returns and stores a pnl of twice the entry premium, for each of the
    three strategies.  (Entry counts a sold leg positive and a bought leg
    negative, settlement the reverse.) *)
Theorem unchanged_prices_double_premium (config : Config)
    (chain : OptionChain) (signal_details : Signal) (current_price : Q)
    (s s' : Backtester.t) (fyers : FyersClient) (date_str : string) :
  Backtester._execute_trade config (Some chain) signal_details current_price s
    = (s', Backtester.Executed) →
  (∀ o, o ∈ options_chain chain →
     ∃ candle rest,
       get_historical_data fyers (symbol o) date_str date_str = candle :: rest
       ∧ close candle == ltp o) →
  ∃ s'' p,
    Backtester.settle_position fyers date_str (length (Backtester.trades s)) s'
      = Ok s'' ∧
    Backtester.trades s'' !! length (Backtester.trades s) = Some p ∧
    pnl p == 2 * entry_premium p.
Proof.
  intros Hrun Hclose.
  destruct (execute_trade_cases config (Some chain) signal_details
              current_price s) as [[Hlog _]|[_ H]].
  { by rewrite Hrun in Hlog. }
  rewrite Hrun in H. simpl in H.
  destruct H as (chain' & trade_legs & net_premium & margin & [= <-] & Hlegs &
                 Hpos & _ & _ & ->).
  destruct (resolve_legs_shape _ _ _ _ _ Hlegs)
    as [(Hknown & _ & Hin)|(_ & _ & ->)];
    [|exfalso; revert Hpos; apply Qlt_irrefl].
  destruct (settlement_sum_opposite chain _ _ _ _
              (λ sym, get_historical_data fyers sym date_str date_str)
              Hknown Hlegs) as (cur & Hcur & _ & Hdouble).
  { intros leg Hleg. apply Hclose. by apply Hin. }
  unfold Backtester.settle_position.
  cbn [Backtester.trades Backtester.set_trades].
  rewrite list_lookup_middle by done.
  cbn [status legs entry_premium]. rewrite Hcur.
  assert (length (Backtester.trades s)
          < length (Backtester.trades s ++
                      [ {| strategy := signal_strategy signal_details;
                           legs := trade_legs; entry_premium := net_premium;
                           margin_required := margin; pnl := 0;
                           status := OPEN |} ]))%nat as Hlt.
  { rewrite length_app. simpl. lia. }
  destruct (Strategy.check_exit_conditions _ _).
  - cbn [Backtester.trades Backtester.set_trades Backtester.cash
         Backtester.positions Backtester.set_cash Backtester.set_positions].
    match goal with
    | |- context [Backtester.list_remove ?st ?r ?v ?l] =>
        destruct (list_remove_present st r v l) as [l' ->]
    end.
    { apply elem_of_app. right. by left. }
    run_result. eexists _, _. split; [done|]. simpl.
    rewrite list_insert_insert_eq, list_lookup_insert_eq by done.
    split; [done|]. exact Hdouble.
  - eexists _, _. split; [done|]. simpl.
    rewrite list_lookup_insert_eq by done. split; [done|]. exact Hdouble.
Qed.

(** ** Simulation loop *)

Lemma attempt_bounds config fyers sig current_price s n :
  let r := Backtester.attempt config fyers sig current_price s n in
  (n ≤ snd r ≤ n + 1)%nat ∧
  (length (Backtester.trades s) ≤ length (Backtester.trades (fst r)))%nat ∧
  (length (Backtester.trades (fst r)) + n
   ≤ length (Backtester.trades s) + snd r)%nat ∧
  (sig = None → r = (s, n)).
Proof.
  destruct sig as [signal_details|]; simpl; [|repeat split; (lia || done)].
  destruct (execute_trade_cases config
              (get_option_chain fyers n (Backtester.underlying_symbol s))
              signal_details current_price s)
    as [[_ ->]|[_ (? & ? & ? & ? & _ & _ & _ & _ & _ & ->)]].
  - repeat split; (lia || done).
  - simpl. rewrite length_app. simpl. repeat split; (lia || done).
Qed.

(** X13.  A step of the loop makes at most two entry attempts (one option-chain
    request each), opens at most as many positions as it makes attempts,
    and drops no stored trade. *)
Theorem step_attempts (config : Config) (fyers : FyersClient) (cal : Calendar)
    (underlying_data : list Candle) (vix_map : gmap Z Q) (i : nat)
    (st st' : Backtester.LoopState) :
  Backtester.loop_body config fyers cal underlying_data vix_map i st = Ok st' →
  (Backtester.requests st ≤ Backtester.requests st'
   ≤ Backtester.requests st + 2)%nat ∧
  (length (Backtester.trades (Backtester.self_ st))
   ≤ length (Backtester.trades (Backtester.self_ st')))%nat ∧
  (length (Backtester.trades (Backtester.self_ st'))
   + Backtester.requests st
   ≤ length (Backtester.trades (Backtester.self_ st))
     + Backtester.requests st')%nat.
Proof.
  unfold Backtester.loop_body. intros Hrun.
  destruct (_ <? _)%nat; [injection Hrun as <-; lia|].
  destruct (underlying_data !! i) as [candle|]; [|done].
  destruct (match Backtester.prev_day st with
            | Some _ => _ | None => _ end) as [s1|] eqn:E1; [|done].
  assert (length (Backtester.trades s1)
          = length (Backtester.trades (Backtester.self_ st))) as Hlen1.
  { destruct (Backtester.prev_day st) as [prev|]; [|by injection E1 as <-].
    case_bool_decide; [|by injection E1 as <-].
    unfold Backtester._handle_eod_exits in E1.
    by apply settle_all_shrinks in E1 as [_ ?]. }
  run_result_in Hrun.
  destruct (DirectionalStrategy.check_entry_signal _ _) as [dir_signal|];
    [|done].
  run_result_in Hrun.
  pose proof (attempt_bounds config fyers dir_signal (close candle) s1
                (Backtester.requests st)) as (H1 & H2 & H3 & _).
  destruct (Backtester.attempt config fyers dir_signal _ s1 _) as [s2 n2].
  pose proof (attempt_bounds config fyers
                (Backtester.non_directional_signal config
                   (vix_map !! timestamp candle)) (close candle) s2 n2)
    as (H4 & H5 & H6 & _).
  destruct (Backtester.attempt config fyers
              (Backtester.non_directional_signal _ _) _ s2 n2) as [s3 n3].
  injection Hrun as <-. simpl in *. lia.
Qed.

(** ** Report *)

Lemma wins_and_losses (l : list Position) :
  (length (filter (λ t, Qltb 0 (pnl t) = true) l)
   + length (filter (λ t, Qle_bool (pnl t) 0 = true) l) = length l)%nat.
Proof.
  induction l as [|t l IH]; [done|].
  rewrite !filter_cons.
  assert (Qltb 0 (pnl t) = negb (Qle_bool (pnl t) 0)) as Hneg by done.
  destruct (Qle_bool (pnl t) 0); simpl in Hneg;
    repeat case_decide; try congruence; simpl; lia.
Qed.

Lemma ratio_percent (w n : nat) :
  (w ≤ n)%nat → (0 < n)%nat →
  0 <= inject_Z (Z.of_nat w) / inject_Z (Z.of_nat n) * 100 <= 100.
Proof.
  intros Hw Hn.
  assert (0 <= inject_Z (Z.of_nat w)) as H0.
  { rewrite <- (Zle_Qle 0). lia. }
  assert (0 < inject_Z (Z.of_nat n)) as H1.
  { rewrite <- (Zlt_Qlt 0). lia. }
  assert (inject_Z (Z.of_nat w) <= inject_Z (Z.of_nat n)) as H2.
  { rewrite <- Zle_Qle. lia. }
  assert (0 <= inject_Z (Z.of_nat w) / inject_Z (Z.of_nat n)) as H3.
  { apply Qle_shift_div_l; [done|]. lra. }
  assert (inject_Z (Z.of_nat w) / inject_Z (Z.of_nat n) <= 1) as H4.
  { apply Qle_shift_div_r; [done|]. lra. }
  lra.
Qed.

(** X14.  The report divides by the initial capital: it raises ZeroDivisionError
    exactly when the initial capital is 0, even with no trade to report.
    Otherwise it returns; the final capital is the cash, the total pnl is the
    cash minus the initial capital, every trade is counted once as winning
    (pnl > 0) or losing (pnl <= 0), and the win rate lies between 0 and 100
    and is 0 when there is no trade. *)
Theorem report_totals (s : Backtester.t) :
  (Backtester.initial_capital s == 0 ↔
   Backtester.generate_report s = Raise ZeroDivisionError) ∧
  (¬ Backtester.initial_capital s == 0 →
   ∃ report, Backtester.generate_report s = Ok report ∧
     Backtester.final_capital report = Backtester.cash s ∧
     Backtester.total_pnl report
       = Backtester.cash s - Backtester.initial_capital s ∧
     Backtester.num_trades report = length (Backtester.trades s) ∧
     (Backtester.num_wins report + Backtester.num_losses report
      = Backtester.num_trades report)%nat ∧
     0 <= Backtester.win_rate report <= 100 ∧
     (Backtester.trades s = [] → Backtester.win_rate report = 0)).
Proof.
  unfold Backtester.generate_report.
  destruct (Qeq_bool (Backtester.initial_capital s) 0) eqn:E.
  - apply Qeq_bool_iff in E. by split.
  - assert (¬ Backtester.initial_capital s == 0) as Hne.
    { intros H. apply Qeq_bool_iff in H. congruence. }
    split; [by split|]. intros _. eexists. split; [done|]. simpl.
    split; [done|]. split; [done|]. split; [done|].
    pose proof (wins_and_losses (Backtester.trades s)) as Hsum.
    split; [done|]. split.
    + destruct (Nat.ltb_spec 0 (length (Backtester.trades s))); [|lra].
      apply ratio_percent; lia.
    + by intros ->.
Qed.

(** ** Outcome of a run *)

(** X15.  The run returns without a report, and without raising, exactly when one
    of the two series is empty. *)
Theorem run_aborts_iff_empty (config : Config) (fyers : FyersClient)
    (cal : Calendar) (s : Backtester.t) :
  Backtester.run_backtest config fyers cal s = Ok None ↔
  get_historical_data fyers (Backtester.underlying_symbol s)
    (Backtester.start_date s) (Backtester.end_date s) = [] ∨
  get_historical_data fyers (Backtester.vix_symbol s)
    (Backtester.start_date s) (Backtester.end_date s) = [].
Proof.
  unfold Backtester.run_backtest.
  destruct (get_historical_data fyers (Backtester.underlying_symbol s) _ _)
    as [|u us]; [by intuition|].
  destruct (get_historical_data fyers (Backtester.vix_symbol s) _ _)
    as [|v vs]; [by intuition|].
  split; [|by intros [?|?]].
  destruct (Backtester.loop _ _ _ _ _ _ _) as [st|]; [|done]. run_result.
  destruct (Backtester._handle_eod_exits _ _ _ _) as [s1|]; [|done].
  run_result.
  by destruct (Backtester.generate_report s1).
Qed.

(** With more candles than the lookback and a non-empty volatility series,
    the simulation itself raises nothing: the run is the report on a ledger
    that the loop and the last settlement have produced. *)
Lemma long_series_reaches_report config fyers cal s :
  ledger_inv s →
  (0 < DirectionalStrategy.long_ma_period (Backtester.dir_strategy s)
     < length (get_historical_data fyers (Backtester.underlying_symbol s)
                 (Backtester.start_date s) (Backtester.end_date s)))%nat →
  get_historical_data fyers (Backtester.vix_symbol s)
    (Backtester.start_date s) (Backtester.end_date s) ≠ [] →
  ∃ s', ledger_inv s' ∧ later s s' ∧
    Backtester.run_backtest config fyers cal s =
    report ← Backtester.generate_report s'; Ok (Some (s', report)).
Proof.
  intros Hinv [Hlong Hlen] Hv. unfold Backtester.run_backtest.
  destruct (get_historical_data fyers (Backtester.underlying_symbol s) _ _)
    as [|u us] eqn:Eu; [simpl in Hlen; lia|].
  destruct (get_historical_data fyers (Backtester.vix_symbol s) _ _)
    as [|v vs] eqn:Ev; [done|].
  destruct (loop_returns config fyers cal (u :: us)
              (Backtester.make_vix_map (v :: vs)) (seq 0 (length (u :: us)))
              {| Backtester.prev_day := None; Backtester.self_ := s;
                 Backtester.requests := 0 |})
    as (st & Eloop & Hinv1 & Hday); [done|done| |].
  { intros i Hi%elem_of_seq. lia. }
  rewrite Eloop. run_result.
  destruct Hday as [day Hday].
  { right. exists (DirectionalStrategy.long_ma_period
                     (Backtester.dir_strategy s)).
    split; [|done]. apply elem_of_seq. simpl in *. lia. }
  rewrite Hday.
  destruct (handle_eod_exits_inv fyers cal day _ Hinv1)
    as (s2 & -> & Hinv2 & Hl2 & _).
  run_result.
  destruct (loop_inv _ _ _ _ _ _ _ _ Eloop Hinv) as [_ Hl1].
  exists s2. split; [done|]. split; [|done].
  by eapply later_trans.
Qed.

(** X16.  A fresh backtester on more than 55 underlying candles and a non-empty
    volatility series, with a non-zero initial capital, completes: the run
    returns a ledger and its report, the final capital of the report is the
    cash of the ledger and its trade count the number of stored trades. *)
Theorem fresh_run_completes (config : Config) (fyers : FyersClient)
    (cal : Calendar) (start_date end_date : string) (initial_capital : Q)
    (underlying_symbol vix_symbol : string) :
  (55 < length (get_historical_data fyers underlying_symbol start_date
                  end_date))%nat →
  get_historical_data fyers vix_symbol start_date end_date ≠ [] →
  ¬ initial_capital == 0 →
  ∃ s' report,
    Backtester.run_backtest config fyers cal
      (Backtester.__init__ config start_date end_date initial_capital
         underlying_symbol vix_symbol) = Ok (Some (s', report)) ∧
    Backtester.final_capital report = Backtester.cash s' ∧
    Backtester.num_trades report = length (Backtester.trades s') ∧
    Backtester.initial_capital s' = initial_capital.
Proof.
  intros Hlen Hv Hcap.
  destruct (long_series_reaches_report config fyers cal
              (Backtester.__init__ config start_date end_date initial_capital
                 underlying_symbol vix_symbol))
    as (s' & _ & Hlater & ->); [apply ledger_inv_init|simpl; lia|done|].
  assert (Backtester.initial_capital s' = initial_capital) as Hic
    by apply Hlater.
  unfold Backtester.generate_report. rewrite Hic.
  destruct (Qeq_bool initial_capital 0) eqn:E.
  { by apply Qeq_bool_iff in E. }
  run_result. by eauto 10.
Qed.

(** X17.  With an initial capital of 0 the same run simulates every candle and
    settles the last day, and then raises ZeroDivisionError in the report. *)
Theorem zero_capital_run_raises (config : Config) (fyers : FyersClient)
    (cal : Calendar) (start_date end_date : string) (initial_capital : Q)
    (underlying_symbol vix_symbol : string) :
  (55 < length (get_historical_data fyers underlying_symbol start_date
                  end_date))%nat →
  get_historical_data fyers vix_symbol start_date end_date ≠ [] →
  initial_capital == 0 →
  Backtester.run_backtest config fyers cal
    (Backtester.__init__ config start_date end_date initial_capital
       underlying_symbol vix_symbol) = Raise ZeroDivisionError.
Proof.
  intros Hlen Hv Hcap.
  destruct (long_series_reaches_report config fyers cal
              (Backtester.__init__ config start_date end_date initial_capital
                 underlying_symbol vix_symbol))
    as (s' & _ & Hlater & ->); [apply ledger_inv_init|simpl; lia|done|].
  assert (Backtester.initial_capital s' = initial_capital) as Hic
    by apply Hlater.
  unfold Backtester.generate_report. rewrite Hic.
  apply Qeq_bool_iff in Hcap. by rewrite Hcap.
Qed.

(** X18.  A fresh backtester on a non-empty underlying series of at most 55
    candles and a non-empty volatility series skips every index, reaches the
    settlement after the loop with no day recorded and raises AttributeError
    there; no report is produced. *)
Theorem fresh_short_run_raises (config : Config) (fyers : FyersClient)
    (cal : Calendar) (start_date end_date : string) (initial_capital : Q)
    (underlying_symbol vix_symbol : string) :
  get_historical_data fyers underlying_symbol start_date end_date ≠ [] →
  (length (get_historical_data fyers underlying_symbol start_date end_date)
   ≤ 55)%nat →
  get_historical_data fyers vix_symbol start_date end_date ≠ [] →
  Backtester.run_backtest config fyers cal
    (Backtester.__init__ config start_date end_date initial_capital
       underlying_symbol vix_symbol) = Raise AttributeError.
Proof.
  intros Hu Hlen Hv. by apply short_series_raises.
Qed.

(** ** Volatility map *)

(** X19.  The map built from the volatility series gives, for a timestamp, the
    close of the last candle of the series that carries it, and nothing when
    no candle carries it. *)
Theorem vix_map_last_wins (vix_data : list Candle) (ts : Z) :
  Backtester.make_vix_map vix_data !! ts
  = close <$> last (filter (λ c, timestamp c = ts) vix_data) ∧
  (Backtester.make_vix_map vix_data !! ts = None ↔
   ∀ c, c ∈ vix_data → timestamp c ≠ ts).
Proof.
  assert (Backtester.make_vix_map vix_data !! ts
          = close <$> last (filter (λ c, timestamp c = ts) vix_data)) as Hmap.
  { unfold Backtester.make_vix_map.
    induction vix_data as [|c l IH] using rev_ind; [done|].
    rewrite foldl_snoc, filter_app, filter_cons, filter_nil.
    case_decide as Hts.
    - rewrite last_snoc, Hts. simpl. apply lookup_insert_eq.
    - rewrite app_nil_r, lookup_insert_ne by done. apply IH. }
  split; [done|]. rewrite Hmap. split.
  - intros Hnone%fmap_None%last_None c Hin Hts.
    assert (c ∈ filter (λ c, timestamp c = ts) vix_data) as Hc
      by (by apply list_elem_of_filter).
    rewrite Hnone in Hc. by apply elem_of_nil in Hc.
  - intros Hnone.
    assert (filter (λ c, timestamp c = ts) vix_data = []) as ->; [|done].
    apply elem_of_nil_inv. intros c [Hts Hin]%list_elem_of_filter.
    by apply (Hnone c).
Qed.

(** ** Non-directional check *)

(** X20.  The loop's non-directional check gives a Short Straddle exactly on a
    volatility value that is present, is not 0 and exceeds the threshold,
    and no signal otherwise; for a threshold that is not negative the
    presence test on the value changes nothing. *)
Theorem non_directional_rule (config : Config) (current_vix : option Q) :
  (Backtester.non_directional_signal config current_vix
     = Some NonDirectionalStrategy.short_straddle ↔
   ∃ v, current_vix = Some v ∧ ¬ v == 0 ∧ INDIA_VIX_THRESHOLD config < v) ∧
  (Backtester.non_directional_signal config current_vix
     ≠ Some NonDirectionalStrategy.short_straddle →
   Backtester.non_directional_signal config current_vix = None) ∧
  (0 <= INDIA_VIX_THRESHOLD config → ∀ v,
   Backtester.non_directional_signal config (Some v)
   = NonDirectionalStrategy.check_entry_signal config v).
Proof.
  unfold Backtester.non_directional_signal,
    NonDirectionalStrategy.check_entry_signal, truthy.
  split; [|split].
  - destruct current_vix as [v|]; [|split; [done | by intros (? & ? & _)]].
    destruct (Qeq_bool v 0) eqn:E0; simpl.
    + apply Qeq_bool_iff in E0. split; [done|].
      by intros (? & [= <-] & ? & _).
    + destruct (Qltb _ v) eqn:E1.
      * apply Qltb_lt in E1. split; [|done]. intros _. exists v.
        split; [done|]. split; [|done].
        intros H. apply Qeq_bool_iff in H. congruence.
      * apply Qltb_ge in E1. split; [done|].
        intros (? & [= <-] & _ & ?). lra.
  - destruct current_vix as [v|]; [|done].
    destruct (negb _); [|done]. by destruct (Qltb _ v).
  - intros Hthr v. destruct (Qeq_bool v 0) eqn:E0; simpl; [|done].
    apply Qeq_bool_iff in E0.
    assert (Qltb (INDIA_VIX_THRESHOLD config) v = false) as ->; [|done].
    apply Qltb_ge. lra.
Qed.

(** ** Indicators *)

Lemma sumQ_bounds xs lo hi :
  (∀ x, x ∈ xs → lo <= x <= hi) →
  lo * inject_Z (Z.of_nat (length xs)) <= sumQ xs
  <= hi * inject_Z (Z.of_nat (length xs)).
Proof.
  induction xs as [|x xs IH]; intros H.
  - cbn [sumQ length]. change (inject_Z (Z.of_nat 0)) with 0. lra.
  - destruct (H x) as [H1 H2]; [by left|].
    destruct IH as [H3 H4]; [intros y Hy; apply H; by right|].
    cbn [sumQ length]. rewrite Nat2Z.inj_succ, <- Z.add_1_r, inject_Z_plus.
    change (inject_Z 1) with 1.
    generalize dependent (inject_Z (Z.of_nat (length xs))).
    generalize dependent (sumQ xs). intros; nra.
Qed.

(** An entry of a rolling mean is NaN, or the mean of a full window. *)
Lemma rolling_mean_entry w xs k x :
  indicators.rolling_mean w xs !! k = Some x →
  (k < length xs)%nat ∧
  if decide (w = 0 ∨ S k < w)%nat then x = NaN
  else ∃ win, win = take w (drop (S k - w) xs) ∧ length win = w ∧
              x = Fin (sumQ win / inject_Z (Z.of_nat w)).
Proof.
  unfold indicators.rolling_mean. rewrite list_lookup_imap.
  destruct (xs !! k) as [y|] eqn:Hk; [|done]. intros [= <-].
  apply lookup_lt_Some in Hk. split; [done|].
  destruct (Nat.ltb_spec (S k) w), (Nat.eqb_spec w 0); simpl;
    case_decide; try lia; try done.
  eexists. split; [done|]. split; [|done].
  rewrite length_take, length_drop. lia.
Qed.

Lemma window_mean_bounds w win lo hi :
  (0 < w)%nat → length win = w → (∀ x, x ∈ win → lo <= x <= hi) →
  lo <= sumQ win / inject_Z (Z.of_nat w) <= hi.
Proof.
  intros Hw Hlen Hb. pose proof (sumQ_bounds win lo hi Hb) as [H1 H2].
  rewrite Hlen in H1, H2.
  assert (0 < inject_Z (Z.of_nat w)) as Hpos.
  { rewrite <- (Zlt_Qlt 0). lia. }
  split.
  - apply Qle_shift_div_l; [done|]. lra.
  - apply Qle_shift_div_r; [done|]. lra.
Qed.

Lemma calculate_sma_series data period s :
  indicators.calculate_sma data period = Ok (Some s) →
  s = indicators.rolling_mean period (close <$> data).
Proof.
  unfold indicators.calculate_sma. destruct (_ <? _)%nat; [done|].
  destruct data; [done|]. by intros [= <-].
Qed.


Lemma where_positive_nonneg d : 0 <= indicators.where_positive d.
Proof.
  destruct d as [q| | |]; simpl; try lra.
  destruct (Qltb 0 q) eqn:E; [|lra]. apply Qltb_lt in E. lra.
Qed.

Lemma where_negative_neg_nonneg d : 0 <= indicators.where_negative_neg d.
Proof.
  destruct d as [q| | |]; simpl; try lra.
  destruct (Qltb q 0) eqn:E; [|lra]. apply Qltb_lt in E. lra.
Qed.

Lemma window_mean_nonneg w win :
  (0 < w)%nat → (∀ x, x ∈ win → 0 <= x) →
  0 <= sumQ win / inject_Z (Z.of_nat w).
Proof.
  intros Hw Hb.
  assert (0 <= sumQ win) as Hsum.
  { induction win as [|x win IH]; cbn [sumQ]; [lra|].
    assert (0 <= x) by (apply Hb; by left).
    assert (0 <= sumQ win) by (apply IH; intros y Hy; apply Hb; by right).
    lra. }
  assert (0 < inject_Z (Z.of_nat w)) as Hpos.
  { rewrite <- (Zlt_Qlt 0). lia. }
  apply Qle_shift_div_l; [done|]. lra.
Qed.

(** An entry of the rolling mean of non-negative numbers. *)
Lemma rolling_mean_nonneg {A} (f : A → Q) w (l : list A) k x :
  (∀ a, 0 <= f a) →
  indicators.rolling_mean w (f <$> l) !! k = Some x →
  x = NaN ∨ ∃ v, x = Fin v ∧ 0 <= v.
Proof.
  intros Hf Hx. apply rolling_mean_entry in Hx as [_ Hx].
  case_decide; [by left|]. destruct Hx as (win & Hwin & _ & ->).
  right. eexists. split; [done|]. apply window_mean_nonneg; [lia|].
  intros y Hy. rewrite Hwin in Hy.
  apply subseteq_take, subseteq_drop in Hy.
  by apply list_elem_of_fmap in Hy as (a & -> & _).
Qed.

(** The oscillator of an average gain and an average loss. *)
Lemma rsi_of_averages g l :
  0 <= g → 0 <= l →
  let x := fl_sub (Fin 100)
             (fl_div (Fin 100) (fl_add (Fin 1) (fl_div (Fin g) (Fin l)))) in
  (g == 0 → l == 0 → x = NaN) ∧
  (¬ (g == 0 ∧ l == 0) → ∃ q, x = Fin q ∧ 0 <= q <= 100 ∧
     (l == 0 → q == 100) ∧ (g == 0 → q == 0)).
Proof.
  intros Hg Hl x. subst x. cbn [fl_div].
  destruct (Qeq_bool l 0) eqn:El.
  - apply Qeq_bool_iff in El. destruct (Qeq_bool g 0) eqn:Eg.
    + apply Qeq_bool_iff in Eg. split; [done|]. tauto.
    + assert (¬ g == 0) as Hgn.
      { intros H. apply Qeq_bool_iff in H. congruence. }
      assert (Qltb 0 g = true) as -> by (apply Qltb_lt; lra).
      cbn [fl_add fl_div fl_sub fl_neg]. split; [tauto|].
      intros _. eexists. split; [done|]. split; [lra|]. split; [|tauto].
      intros _. ring.
  - assert (0 < l) as Hlp.
    { assert (¬ l == 0) by (intros H; apply Qeq_bool_iff in H; congruence).
      lra. }
    cbn [fl_add fl_div].
    assert (0 <= g / l) as Hrs by (apply Qle_shift_div_l; [done | lra]).
    assert (Qeq_bool (1 + g / l) 0 = false) as ->.
    { apply not_true_iff_false. intros H%Qeq_bool_iff. lra. }
    cbn [fl_sub fl_neg fl_add]. split; [intros _ H; lra|].
    intros _. eexists. split; [done|].
    assert (0 < 100 / (1 + g / l) <= 100) as [H1 H2].
    { split.
      - apply Qlt_shift_div_l; lra.
      - apply Qle_shift_div_r; lra. }
    split; [lra|]. split; [intros H; lra|].
    intros Hg0. rewrite Hg0. field. lra.
Qed.

Lemma calculate_rsi_series data period s :
  indicators.calculate_rsi data period = Ok (Some s) →
  s = (λ x, fl_sub (Fin 100) (fl_div (Fin 100) (fl_add (Fin 1) x)))
      <$> zip_with fl_div
            (indicators.rolling_mean period
               (indicators.where_positive
                  <$> indicators.diff (close <$> data)))
            (indicators.rolling_mean period
               (indicators.where_negative_neg
                  <$> indicators.diff (close <$> data))).
Proof.
  unfold indicators.calculate_rsi. destruct (_ <? _)%nat; [done|].
  destruct data; [done|]. by intros [= <-].
Qed.

(** X22.  Every entry of the oscillator series is NaN or a number between 0 and
    100; the series has one entry per candle. *)
Theorem rsi_range (data : list Candle) (period : nat) (s : list fl) :
  indicators.calculate_rsi data period = Ok (Some s) →
  length s = length data ∧
  ∀ k x, s !! k = Some x → x = NaN ∨ ∃ q, x = Fin q ∧ 0 <= q <= 100.
Proof.
  intros ->%calculate_rsi_series. split.
  { repeat rewrite ?length_fmap, ?length_zip_with, ?length_rolling_mean,
      ?length_diff. lia. }
  intros k x (y & -> & Hy)%list_lookup_fmap_Some.
  apply lookup_zip_with_Some in Hy as (a & b & -> & Ha & Hb).
  apply (rolling_mean_nonneg _ _ _ _ _ where_positive_nonneg) in Ha.
  apply (rolling_mean_nonneg _ _ _ _ _ where_negative_neg_nonneg) in Hb.
  destruct Ha as [->|(g & -> & Hg)]; [by left|].
  destruct Hb as [->|(l & -> & Hl)]; [by left|].
  destruct (rsi_of_averages g l Hg Hl) as [Hnan Hfin].
  destruct (Qeq_dec g 0) as [Hg0|Hg0].
  - destruct (Qeq_dec l 0) as [Hl0|Hl0]; [left; by apply Hnan|].
    right. destruct Hfin as (q & ? & ? & _); [tauto|]. eauto.
  - right. destruct Hfin as (q & ? & ? & _); [tauto|]. eauto.
Qed.

Lemma iloc_neg_lookup s k v :
  indicators.iloc_neg s k = Ok v → s !! (length s - k)%nat = Some v.
Proof.
  unfold indicators.iloc_neg. destruct (_ <? _)%nat; [done|].
  destruct (s !! _); [by intros [= ->] | done].
Qed.

Lemma iloc_neg_out_of_range s k :
  (length s < k)%nat → indicators.iloc_neg s k = Raise IndexError.
Proof.
  intros H. unfold indicators.iloc_neg.
  by destruct (Nat.ltb_spec (length s) k); [|lia].
Qed.

(** On closes that all have the value [c], a moving-average entry is NaN
    or has the value [c]. *)
Lemma flat_sma_entry data period s c k x :
  (∀ candle, candle ∈ data → close candle == c) →
  indicators.calculate_sma data period = Ok (Some s) →
  s !! k = Some x → x = NaN ∨ ∃ v, x = Fin v ∧ v == c.
Proof.
  intros Hflat ->%calculate_sma_series Hx.
  apply rolling_mean_entry in Hx as [_ Hx].
  case_decide; [by left|]. destruct Hx as (win & Hwin & Hlen & ->).
  right. eexists. split; [done|].
  destruct (window_mean_bounds period win c c) as [H1 H2]; [lia|done| |lra].
  intros y Hy. rewrite Hwin in Hy.
  apply subseteq_take, subseteq_drop in Hy.
  apply list_elem_of_fmap in Hy as (candle & -> & Hc).
  rewrite (Hflat candle Hc). lra.
Qed.

(** X23.  A flat market gives no directional signal: on a prefix of two candles
    or more whose closes all have the same value the generator returns no
    signal (and raises nothing), whatever the periods. *)
Theorem flat_series_no_signal (self : DirectionalStrategy.t)
    (data : list Candle) (c : Q) :
  (2 ≤ length data)%nat →
  (∀ candle, candle ∈ data → close candle == c) →
  DirectionalStrategy.check_entry_signal self data = Ok None.
Proof.
  intros H2 Hflat.
  destruct (decide (DirectionalStrategy.short_ma_period self ≤ length data
                    ∧ DirectionalStrategy.long_ma_period self ≤ length data
                    ∧ DirectionalStrategy.rsi_period self ≤ length data)%nat)
    as [(Es & El & Eo)|Hshort].
  2:{ apply check_entry_signal_insufficient; [|lia].
      left. intros ->. simpl in H2. lia. }
  destruct (latest_values_exist self data Es El Eo H2)
    as (ps & pl & ls & ll & r & Hv).
  rewrite (check_entry_signal_latest _ _ _ _ _ _ _ Hv). f_equal.
  destruct Hv as (sm & lm & rs & Esm & Elm & _ & _ & _ & Hls & Hll & _).
  apply iloc_neg_lookup in Hls, Hll.
  assert (fl_lt ll ls = false ∧ fl_lt ls ll = false) as [H1 H3].
  { destruct (flat_sma_entry _ _ _ _ _ _ Hflat Esm Hls)
      as [->|(a & -> & Ha)];
      destruct (flat_sma_entry _ _ _ _ _ _ Hflat Elm Hll)
        as [->|(b & -> & Hb)]; try done.
    simpl. split; apply Qltb_ge; lra. }
  unfold DirectionalStrategy.crossover.
  by rewrite H1, H3, !andb_false_r.
Qed.

(** X24.  Two prefixes on which the generator raises instead of returning: a
    single candle when no period exceeds 1 (there is no previous moving
    average, IndexError), and the empty prefix when the short period is 0
    (the empty frame has no columns to name, ValueError). *)
Theorem degenerate_prefix_raises (self : DirectionalStrategy.t) :
  ((DirectionalStrategy.short_ma_period self ≤ 1)%nat →
   (DirectionalStrategy.long_ma_period self ≤ 1)%nat →
   (DirectionalStrategy.rsi_period self ≤ 1)%nat →
   ∀ candle,
     DirectionalStrategy.check_entry_signal self [candle]
     = Raise IndexError) ∧
  (DirectionalStrategy.short_ma_period self = 0%nat →
   DirectionalStrategy.check_entry_signal self [] = Raise ValueError).
Proof.
  split.
  - intros Hs Hl Ho candle.
    destruct (calculate_sma_enough [candle]
                (DirectionalStrategy.short_ma_period self))
      as (sm & Esm & Lsm); [done|simpl; lia|].
    destruct (calculate_sma_enough [candle]
                (DirectionalStrategy.long_ma_period self))
      as (lm & Elm & Llm); [done|simpl; lia|].
    destruct (calculate_rsi_enough [candle]
                (DirectionalStrategy.rsi_period self))
      as (rs & Ers & Lrs); [done|simpl; lia|].
    destruct (iloc_neg_in_range sm 1) as [ls Els]; [simpl in *; lia|].
    destruct (iloc_neg_in_range lm 1) as [ll Ell]; [simpl in *; lia|].
    unfold DirectionalStrategy.check_entry_signal.
    rewrite Esm, Elm, Ers. run_result. cbv beta iota.
    rewrite Els, Ell. run_result.
    rewrite (iloc_neg_out_of_range sm 2) by (simpl in *; lia).
    by run_result.
  - intros Hs. unfold DirectionalStrategy.check_entry_signal. by rewrite Hs.
Qed.

(** *** The oscillator on monotone prices *)

Lemma diff_from_lookup prev xs i a b :
  (prev :: xs) !! i = Some a → (prev :: xs) !! S i = Some b →
  indicators.diff_from prev xs !! i = Some (Fin (b - a)).
Proof.
  revert prev i. induction xs as [|x xs IH]; intros prev i Ha Hb; [done|].
  destruct i as [|i]; simpl in *.
  - by injection Ha as <-; injection Hb as <-.
  - by apply IH.
Qed.

Lemma diff_lookup_S xs i a b :
  xs !! i = Some a → xs !! S i = Some b →
  indicators.diff xs !! S i = Some (Fin (b - a)).
Proof.
  destruct xs as [|x xs]; [done|]. intros Ha Hb. simpl.
  by apply diff_from_lookup.
Qed.

Lemma diff_entries xs d :
  d ∈ indicators.diff xs →
  d = NaN ∨ ∃ i a b, xs !! i = Some a ∧ xs !! S i = Some b ∧ d = Fin (b - a).
Proof.
  destruct xs as [|x xs]; [by intros ?%elem_of_nil|]. simpl.
  intros [->|Hd]%elem_of_cons; [by left|]. right.
  revert x Hd. induction xs as [|y xs IH]; intros x Hd;
    [by apply elem_of_nil in Hd|].
  simpl in Hd. apply elem_of_cons in Hd as [->|Hd].
  - by exists 0%nat, x, y.
  - destruct (IH y Hd) as (i & a & b & Ha & Hb & ->).
    by exists (S i), a, b.
Qed.

Lemma sumQ_ge_elem l y :
  (∀ x, x ∈ l → 0 <= x) → y ∈ l → y <= sumQ l.
Proof.
  induction l as [|x l IH]; intros Hl Hy; [by apply elem_of_nil in Hy|].
  assert (0 <= x) by (apply Hl; by left).
  assert (0 <= sumQ l).
  { clear IH Hy. induction l as [|z l IH]; cbn [sumQ]; [lra|].
    assert (0 <= z) by (apply Hl; right; by left).
    assert (0 <= sumQ l); [|lra].
    apply IH. intros u [->|Hu]%elem_of_cons; apply Hl; [by left|].
    right. by right. }
  cbn [sumQ]. apply elem_of_cons in Hy as [->|Hy]; [lra|].
  assert (y <= sumQ l); [|lra].
  apply IH; [|done]. intros u Hu. apply Hl. by right.
Qed.

Lemma sumQ_zero l : (∀ x, x ∈ l → x == 0) → sumQ l == 0.
Proof.
  induction l as [|x l IH]; intros Hl; cbn [sumQ]; [lra|].
  rewrite (Hl x), IH; [lra| |by left].
  intros y Hy. apply Hl. by right.
Qed.

(** The last entry of the oscillator, from the last windows of the gains
    and of the losses. *)
Lemma rsi_last data period s :
  indicators.calculate_rsi data period = Ok (Some s) →
  (0 < period)%nat → data ≠ [] →
  let deltas := indicators.diff (close <$> data) in
  let window (raw : list Q) :=
    take period (drop (length data - period) raw) in
  (period ≤ length data)%nat ∧
  last s = Some (fl_sub (Fin 100) (fl_div (Fin 100) (fl_add (Fin 1)
    (fl_div
       (Fin (sumQ (window (indicators.where_positive <$> deltas))
             / inject_Z (Z.of_nat period)))
       (Fin (sumQ (window (indicators.where_negative_neg <$> deltas))
             / inject_Z (Z.of_nat period))))))).
Proof.
  intros Hs Hw Hne deltas window.
  assert (period ≤ length data)%nat as Hle.
  { unfold indicators.calculate_rsi in Hs.
    destruct (Nat.ltb_spec (length data) period); [done | lia]. }
  split; [done|].
  assert (0 < length data)%nat as Hlen by (destruct data; [done|simpl; lia]).
  apply calculate_rsi_series in Hs as ->. fold deltas.
  assert (length deltas = length data) as Hd.
  { unfold deltas. by rewrite length_diff, length_fmap. }
  rewrite last_lookup.
  repeat rewrite ?length_fmap, ?length_zip_with, ?length_rolling_mean.
  rewrite Hd, Nat.min_id.
  rewrite list_lookup_fmap, lookup_zip_with.
  unfold indicators.rolling_mean. rewrite !list_lookup_imap.
  destruct (lookup_lt_is_Some_2 deltas (pred (length data))) as [d Hdl];
    [lia|].
  rewrite !list_lookup_fmap, Hdl. simpl.
  replace (S (pred (length data))) with (length data) by lia.
  destruct (Nat.ltb_spec (length data) period); [lia|].
  destruct (Nat.eqb_spec period 0); [lia|]. done.
Qed.

(** X25.  On prices that rise from each candle to the next the oscillator ends
    at 100 (the average loss is 0 and the division gives +inf); on prices
    that fall from each candle to the next it ends at 0.  Two candles are
    enough, and any period from 1 to the number of candles. *)
Theorem rsi_on_monotone_prices (data : list Candle) (period : nat)
    (s : list fl) :
  indicators.calculate_rsi data period = Ok (Some s) →
  (0 < period)%nat → (2 ≤ length data)%nat →
  ((∀ i a b, data !! i = Some a → data !! S i = Some b → close a < close b) →
   ∃ q, last s = Some (Fin q) ∧ q == 100) ∧
  ((∀ i a b, data !! i = Some a → data !! S i = Some b → close b < close a) →
   ∃ q, last s = Some (Fin q) ∧ q == 0).
Proof.
  intros Hs Hw H2.
  assert (data ≠ []) as Hne by (intros ->; simpl in H2; lia).
  destruct (rsi_last data period s Hs Hw Hne) as [Hle ->].
  set (deltas := indicators.diff (close <$> data)).
  set (wg := take period (drop (length data - period)
                            (indicators.where_positive <$> deltas))).
  set (wl := take period (drop (length data - period)
                            (indicators.where_negative_neg <$> deltas))).
  assert (0 < inject_Z (Z.of_nat period)) as Hpos.
  { rewrite <- (Zlt_Qlt 0). lia. }
  (* the last price change is in both windows *)
  assert (∃ a b, data !! (length data - 2)%nat = Some a ∧
                 data !! S (length data - 2) = Some b ∧
                 indicators.where_positive (Fin (close b - close a)) ∈ wg ∧
                 indicators.where_negative_neg (Fin (close b - close a)) ∈ wl)
    as (a & b & Ha & Hb & Hing & Hinl).
  { destruct (lookup_lt_is_Some_2 data (length data - 2)) as [a Ha]; [lia|].
    destruct (lookup_lt_is_Some_2 data (S (length data - 2))) as [b Hb];
      [lia|].
    exists a, b. split; [done|]. split; [done|].
    assert (deltas !! S (length data - 2)
            = Some (Fin (close b - close a))) as Hd.
    { apply diff_lookup_S; rewrite list_lookup_fmap; [by rewrite Ha|].
      by rewrite Hb. }
    split; apply (list_elem_of_lookup_2 _ (period - 1)); unfold wg, wl;
      rewrite lookup_take_lt, lookup_drop, list_lookup_fmap by lia;
      replace (length data - period + (period - 1))%nat
        with (S (length data - 2)) by lia;
      by rewrite Hd. }
  assert (0 <= sumQ wg / inject_Z (Z.of_nat period)) as Hg.
  { apply window_mean_nonneg; [done|]. intros y Hy.
    apply subseteq_take, subseteq_drop in Hy.
    apply list_elem_of_fmap in Hy as (d & -> & _).
    apply where_positive_nonneg. }
  assert (0 <= sumQ wl / inject_Z (Z.of_nat period)) as Hl.
  { apply window_mean_nonneg; [done|]. intros y Hy.
    apply subseteq_take, subseteq_drop in Hy.
    apply list_elem_of_fmap in Hy as (d & -> & _).
    apply where_negative_neg_nonneg. }
  destruct (rsi_of_averages _ _ Hg Hl) as [_ Hfin].
  split.
  - (* rising: no loss, and the last change is a gain *)
    intros Hrise.
    assert (sumQ wl == 0) as Hlz.
    { apply sumQ_zero. intros y Hy.
      apply subseteq_take, subseteq_drop in Hy.
      apply list_elem_of_fmap in Hy as (d & -> & Hd).
      apply diff_entries in Hd as [->|(i & x & z & Hx & Hz & ->)];
        [done|].
      rewrite !list_lookup_fmap in Hx, Hz.
      destruct (data !! i) as [ci|] eqn:Ei; [|done].
      destruct (data !! S i) as [cj|] eqn:Ej; [|done].
      injection Hx as <-. injection Hz as <-.
      pose proof (Hrise i ci cj Ei Ej). simpl.
      destruct (Qltb (close cj - close ci) 0) eqn:E; [|done].
      apply Qltb_lt in E. lra. }
    assert (0 < sumQ wg) as Hgp.
    { pose proof (Hrise _ a b Ha Hb) as Hab.
      apply (Qlt_le_trans _ (indicators.where_positive
                               (Fin (close b - close a)))).
      - simpl. destruct (Qltb 0 (close b - close a)) eqn:E; [lra|].
        apply Qltb_ge in E. lra.
      - apply sumQ_ge_elem; [|done]. intros y Hy.
        apply subseteq_take, subseteq_drop in Hy.
        apply list_elem_of_fmap in Hy as (d & -> & _).
        apply where_positive_nonneg. }
    assert (sumQ wl / inject_Z (Z.of_nat period) == 0) as Hl0.
    { rewrite Hlz. field. lra. }
    assert (0 < sumQ wg / inject_Z (Z.of_nat period)) as Hg0.
    { apply Qlt_shift_div_l; [done|]. lra. }
    destruct Hfin as (q & -> & _ & Hq & _); [intros [? _]; lra|].
    exists q. split; [done|]. by apply Hq.
  - (* falling: no gain, and the last change is a loss *)
    intros Hfall.
    assert (sumQ wg == 0) as Hgz.
    { apply sumQ_zero. intros y Hy.
      apply subseteq_take, subseteq_drop in Hy.
      apply list_elem_of_fmap in Hy as (d & -> & Hd).
      apply diff_entries in Hd as [->|(i & x & z & Hx & Hz & ->)];
        [done|].
      rewrite !list_lookup_fmap in Hx, Hz.
      destruct (data !! i) as [ci|] eqn:Ei; [|done].
      destruct (data !! S i) as [cj|] eqn:Ej; [|done].
      injection Hx as <-. injection Hz as <-.
      pose proof (Hfall i ci cj Ei Ej). simpl.
      destruct (Qltb 0 (close cj - close ci)) eqn:E; [|done].
      apply Qltb_lt in E. lra. }
    assert (0 < sumQ wl) as Hlp.
    { pose proof (Hfall _ a b Ha Hb) as Hab.
      apply (Qlt_le_trans _ (indicators.where_negative_neg
                               (Fin (close b - close a)))).
      - simpl. destruct (Qltb (close b - close a) 0) eqn:E; [lra|].
        apply Qltb_ge in E. lra.
      - apply sumQ_ge_elem; [|done]. intros y Hy.
        apply subseteq_take, subseteq_drop in Hy.
        apply list_elem_of_fmap in Hy as (d & -> & _).
        apply where_negative_neg_nonneg. }
    assert (sumQ wg / inject_Z (Z.of_nat period) == 0) as Hg0.
    { rewrite Hgz. field. lra. }
    assert (0 < sumQ wl / inject_Z (Z.of_nat period)) as Hl0.
    { apply Qlt_shift_div_l; [done|]. lra. }
    destruct Hfin as (q & -> & _ & _ & Hq); [intros [_ ?]; lra|].
    exists q. split; [done|]. by apply Hq.
Qed.

(** * The platform game *)

Section mario_properties.
Local Open Scope Z_scope.






End mario_properties.

(** * Instances of the further properties *)

Lemma find_option_sign_blind_witness :
  Forall2 same_moneyness (options_chain Sample.puts_only)
    (options_chain Cases.unsigned_puts) ∧
  match _find_option Sample.puts_only (3#10) "PE",
        _find_option Cases.unsigned_puts (3#10) "PE" with
  | None, None => True
  | Some b, Some b' =>
      ∃ k, options_chain Sample.puts_only !! k = Some b ∧
           options_chain Cases.unsigned_puts !! k = Some b'
  | _, _ => False
  end.
Proof.
  assert (Forall2 same_moneyness (options_chain Sample.puts_only)
            (options_chain Cases.unsigned_puts)) as H.
  { repeat constructor. }
  split; [exact H|].
  exact (find_option_sign_blind Sample.puts_only Cases.unsigned_puts (3#10)
           "PE" H).
Defined.


Lemma entry_without_contracts_witness :
  (∀ o, o ∈ options_chain Sample.puts_only → option_type o ≠ "CE"%string) ∧
  Backtester._execute_trade Sample.config (Some Sample.puts_only)
    DirectionalStrategy.bear_call_spread 100 (Sample.backtester 100000)
  = (Sample.backtester 100000, Backtester.NoOptions).
Proof.
  assert (∀ o, o ∈ options_chain Sample.puts_only →
            option_type o ≠ "CE"%string) as Hnone.
  { intros o Hin. repeat (apply elem_of_cons in Hin as [->|Hin]; [done|]).
    by apply elem_of_nil in Hin. }
  split; [exact Hnone|].
  exact (proj2 (entry_without_contracts Sample.config
                  DirectionalStrategy.bear_call_spread 100
                  (Sample.backtester 100000))
           Sample.puts_only "CE"%string Hnone
           (or_intror (or_introl (conj eq_refl eq_refl)))).
Defined.

Lemma degenerate_spread_rejected_witness :
  (_find_option Cases.one_put (3#5) "PE" = Some Sample.put_100 ∧
   _find_option Cases.one_put (3#10) "PE" = Some Sample.put_100) ∧
  Backtester._execute_trade Sample.config (Some Cases.one_put)
    DirectionalStrategy.bull_put_spread 100 (Sample.backtester 100000)
  = (Sample.backtester 100000, Backtester.MoreMargin).
Proof.
  assert (_find_option Cases.one_put (3#5) "PE" = Some Sample.put_100) as H1
    by (vm_compute; reflexivity).
  assert (_find_option Cases.one_put (3#10) "PE" = Some Sample.put_100) as H2
    by (vm_compute; reflexivity).
  split; [by split|].
  exact (degenerate_spread_rejected Sample.config Cases.one_put
           DirectionalStrategy.bull_put_spread 100 (Sample.backtester 100000)
           "PE" Sample.put_100 (or_introl (conj eq_refl eq_refl)) H1 H2).
Defined.

Lemma exit_always_on_nonpositive_premium_witness :
  (0 <= Strategy.sl_pct Cases.exit_rule ∧ 0 <= Strategy.tp_pct Cases.exit_rule ∧
   entry_premium Cases.no_premium <= 0) ∧
  Strategy.check_exit_conditions Cases.exit_rule Cases.no_premium ≠ None.
Proof.
  assert (0 <= Strategy.sl_pct Cases.exit_rule) as H1 by (by vm_compute).
  assert (0 <= Strategy.tp_pct Cases.exit_rule) as H2 by (by vm_compute).
  assert (entry_premium Cases.no_premium <= 0) as H3 by (by vm_compute).
  split; [by repeat split|].
  exact (exit_always_on_nonpositive_premium Cases.exit_rule Cases.no_premium
           H1 H2 H3).
Defined.


Lemma step_attempts_witness :
  Backtester.loop_body Sample.config Sample.fyers_run Sample.calendar
    Sample.run_candles Cases.vix_map_55 55 (Sample.nothing_requested 100000)
  = Ok Cases.after_step ∧
  Backtester.requests Cases.after_step = 1%nat ∧
  (length (Backtester.trades (Backtester.self_ Cases.after_step))
   + 0 ≤ 0 + Backtester.requests Cases.after_step)%nat.
Proof.
  assert (Backtester.loop_body Sample.config Sample.fyers_run Sample.calendar
            Sample.run_candles Cases.vix_map_55 55
            (Sample.nothing_requested 100000) = Ok Cases.after_step) as Hrun
    by (vm_compute; reflexivity).
  split; [exact Hrun|]. split; [reflexivity|].
  exact (proj2 (proj2 (step_attempts _ _ _ _ _ _ _ _ Hrun))).
Defined.

Lemma report_totals_witness :
  ¬ Backtester.initial_capital Sample.final_ledger == 0 ∧
  ∃ report, Backtester.generate_report Sample.final_ledger = Ok report ∧
    (Backtester.num_wins report + Backtester.num_losses report
     = Backtester.num_trades report)%nat.
Proof.
  assert (¬ Backtester.initial_capital Sample.final_ledger == 0) as Hcap
    by (by vm_compute).
  split; [exact Hcap|].
  destruct (proj2 (report_totals Sample.final_ledger) Hcap)
    as (report & H1 & _ & _ & _ & H2 & _).
  by exists report.
Defined.

Lemma fresh_run_completes_witness :
  ((55 < length (get_historical_data Sample.fyers_run "NSE:NIFTY50-INDEX"
                   "2020-01-01" "2020-01-31"))%nat ∧
   get_historical_data Sample.fyers_run "NSE:INDIAVIX-INDEX" "2020-01-01"
     "2020-01-31" ≠ [] ∧
   ¬ 100000 == 0) ∧
  ∃ s' report,
    Backtester.run_backtest Sample.config Sample.fyers_run Sample.calendar
      (Backtester.__init__ Sample.config "2020-01-01" "2020-01-31" 100000
         "NSE:NIFTY50-INDEX" "NSE:INDIAVIX-INDEX") = Ok (Some (s', report)) ∧
    Backtester.final_capital report = Backtester.cash s'.
Proof.
  assert (55 < length (get_historical_data Sample.fyers_run
                         "NSE:NIFTY50-INDEX" "2020-01-01" "2020-01-31"))%nat
    as H1 by (vm_compute; lia).
  assert (get_historical_data Sample.fyers_run "NSE:INDIAVIX-INDEX"
            "2020-01-01" "2020-01-31" ≠ []) as H2 by done.
  assert (¬ 100000 == 0) as H3 by (by vm_compute).
  split; [by repeat split|].
  destruct (fresh_run_completes Sample.config Sample.fyers_run Sample.calendar
              "2020-01-01" "2020-01-31" 100000 "NSE:NIFTY50-INDEX"
              "NSE:INDIAVIX-INDEX" H1 H2 H3) as (s' & report & Hrun & Hf & _).
  by exists s', report.
Defined.

Lemma zero_capital_run_raises_witness :
  ((55 < length (get_historical_data Sample.fyers_run "NSE:NIFTY50-INDEX"
                   "2020-01-01" "2020-01-31"))%nat ∧
   get_historical_data Sample.fyers_run "NSE:INDIAVIX-INDEX" "2020-01-01"
     "2020-01-31" ≠ [] ∧
   0 == 0) ∧
  Backtester.run_backtest Sample.config Sample.fyers_run Sample.calendar
    (Backtester.__init__ Sample.config "2020-01-01" "2020-01-31" 0
       "NSE:NIFTY50-INDEX" "NSE:INDIAVIX-INDEX") = Raise ZeroDivisionError.
Proof.
  assert (55 < length (get_historical_data Sample.fyers_run
                         "NSE:NIFTY50-INDEX" "2020-01-01" "2020-01-31"))%nat
    as H1 by (vm_compute; lia).
  assert (get_historical_data Sample.fyers_run "NSE:INDIAVIX-INDEX"
            "2020-01-01" "2020-01-31" ≠ []) as H2 by done.
  assert (0 == 0) as H3 by reflexivity.
  split; [by repeat split|].
  exact (zero_capital_run_raises Sample.config Sample.fyers_run Sample.calendar
           "2020-01-01" "2020-01-31" 0 "NSE:NIFTY50-INDEX"
           "NSE:INDIAVIX-INDEX" H1 H2 H3).
Defined.

Lemma fresh_short_run_raises_witness :
  (get_historical_data Sample.fyers_one_candle "NSE:NIFTY50-INDEX"
     "1970-01-01" "1970-01-31" ≠ [] ∧
   (length (get_historical_data Sample.fyers_one_candle "NSE:NIFTY50-INDEX"
              "1970-01-01" "1970-01-31") ≤ 55)%nat) ∧
  Backtester.run_backtest Sample.config Sample.fyers_one_candle
    Sample.calendar
    (Backtester.__init__ Sample.config "1970-01-01" "1970-01-31" 100000
       "NSE:NIFTY50-INDEX" "NSE:INDIAVIX-INDEX") = Raise AttributeError.
Proof.
  assert (get_historical_data Sample.fyers_one_candle "NSE:NIFTY50-INDEX"
            "1970-01-01" "1970-01-31" ≠ []) as H1 by done.
  assert (length (get_historical_data Sample.fyers_one_candle
                    "NSE:NIFTY50-INDEX" "1970-01-01" "1970-01-31") ≤ 55)%nat
    as H2 by (vm_compute; lia).
  split; [by split|].
  exact (fresh_short_run_raises Sample.config Sample.fyers_one_candle
           Sample.calendar "1970-01-01" "1970-01-31" 100000
           "NSE:NIFTY50-INDEX" "NSE:INDIAVIX-INDEX" H1 H2 H1).
Defined.

Lemma unchanged_prices_double_premium_witness :
  Backtester._execute_trade Sample.config (Some Sample.chain)
    DirectionalStrategy.bull_put_spread 100 (Sample.backtester 100000)
  = (Sample.after_entry, Backtester.Executed) ∧
  ∃ s'' p,
    Backtester.settle_position Sample.fyers_unchanged "1970-01-01" 0
      Sample.after_entry = Ok s'' ∧
    Backtester.trades s'' !! 0%nat = Some p ∧
    pnl p == 2 * entry_premium p.
Proof.
  assert (Backtester._execute_trade Sample.config (Some Sample.chain)
            DirectionalStrategy.bull_put_spread 100 (Sample.backtester 100000)
          = (Sample.after_entry, Backtester.Executed)) as Hrun
    by (vm_compute; reflexivity).
  split; [exact Hrun|].
  apply (unchanged_prices_double_premium Sample.config Sample.chain
           DirectionalStrategy.bull_put_spread 100 (Sample.backtester 100000)
           Sample.after_entry Sample.fyers_unchanged "1970-01-01" Hrun).
  intros o Hin.
  repeat (apply elem_of_cons in Hin as [->|Hin];
          [eexists _, _; split; reflexivity|]).
  by apply elem_of_nil in Hin.
Defined.


Lemma rsi_range_witness :
  indicators.calculate_rsi Cases.rising 2 = Ok (Some Cases.rsi_2_rising) ∧
  length Cases.rsi_2_rising = length Cases.rising.
Proof.
  assert (indicators.calculate_rsi Cases.rising 2
          = Ok (Some Cases.rsi_2_rising)) as Hs by (vm_compute; reflexivity).
  split; [exact Hs|].
  exact (proj1 (rsi_range Cases.rising 2 Cases.rsi_2_rising Hs)).
Defined.

Lemma rsi_on_monotone_prices_witness :
  indicators.calculate_rsi Cases.rising 2 = Ok (Some Cases.rsi_2_rising) ∧
  ∃ q, last Cases.rsi_2_rising = Some (Fin q) ∧ q == 100.
Proof.
  assert (indicators.calculate_rsi Cases.rising 2
          = Ok (Some Cases.rsi_2_rising)) as Hs by (vm_compute; reflexivity).
  split; [exact Hs|].
  assert (0 < 2)%nat as H0 by lia.
  assert (2 ≤ length Cases.rising)%nat as H2 by (vm_compute; lia).
  apply (proj1 (rsi_on_monotone_prices Cases.rising 2 Cases.rsi_2_rising
                  Hs H0 H2)).
  intros i a b Ha Hb.
  destruct i as [|[|[|i]]]; try done;
    injection Ha as <-; injection Hb as <-; by vm_compute.
Defined.

Lemma flat_series_no_signal_witness :
  (2 ≤ length Cases.flat)%nat ∧
  DirectionalStrategy.check_entry_signal Sample.fast_strategy Cases.flat
  = Ok None.
Proof.
  assert (2 ≤ length Cases.flat)%nat as H2 by (vm_compute; lia).
  split; [exact H2|].
  apply (flat_series_no_signal Sample.fast_strategy Cases.flat 10 H2).
  intros candle Hin.
  repeat (apply elem_of_cons in Hin as [->|Hin]; [reflexivity|]).
  by apply elem_of_nil in Hin.
Defined.

Lemma degenerate_prefix_raises_witness :
  DirectionalStrategy.check_entry_signal
    (DirectionalStrategy.__init__ Sample.config 1 1 1)
    [Sample.flat_candle 0 10]
  = Raise IndexError.
Proof.
  apply (proj1 (degenerate_prefix_raises
                  (DirectionalStrategy.__init__ Sample.config 1 1 1)));
    simpl; lia.
Defined.





Lemma non_directional_rule_witness :
  0 <= INDIA_VIX_THRESHOLD Sample.config ∧
  Backtester.non_directional_signal Sample.config (Some 20)
  = NonDirectionalStrategy.check_entry_signal Sample.config 20.
Proof.
  assert (0 <= INDIA_VIX_THRESHOLD Sample.config) as Hpos by (by vm_compute).
  split; [exact Hpos|].
  exact (proj2 (proj2 (non_directional_rule Sample.config (Some 20))) Hpos 20).
Defined.
